(** * Weather and NDVI data API: the request pipeline of [api.py]

    A shallow embedding of [validate_request], [get_open_meteo_weather],
    [get_ndvi_data] and the [get_data] handler, and the properties of the
    design document that concern them.

    Conventions of the embedding:
    - a Python value that can occur in a JSON document is a [json]; a Python
      [float] is a binary64 value, a [spec_float] of the Standard Library, and
      division and the conversion of integers are those of IEEE 754, rounding
      to nearest even; the additions [sum] makes once its total is a float,
      whose rounding depends on the version of the interpreter, are a
      parameter of the model;
    - a Python [dict] is a [gmap] with string keys;
    - an exception is a value [exn] carrying its class and the text that
      [str(e)] returns; code that may raise lives in the monad [M], whose
      state survives a raise (as the effects of Python statements executed
      before a raise do);
    - the two remote providers, the Earth Engine session and the standard
      output are the [world]; the invocations of the two reducers and every
      call to a provider are recorded in [calls]; of what the code prints the
      model keeps whether [print] returns or raises. *)

From Stdlib Require Import QArith SpecFloat.
From stdpp Require Import gmap strings list fin_maps pretty.

Close Scope Q_scope.
Set Warnings "-register-all".

(** ** Python values *)

(** A Python [float] is a binary64 value: a zero, an infinity, a NaN or a
    finite number with its sign, mantissa and exponent.  An integer literal
    that stands where a float is expected is the float of that value. *)
Definition pyfloat : Type := spec_float.

Bind Scope Z_scope with pyfloat.

(** [float(z)]: the float nearest to [z], an infinity when [z] is out of
    range. *)
Definition float_of_int (z : Z) : pyfloat := binary_normalize 53 1024 z 0 false.

Coercion float_of_int : Z >-> pyfloat.

(** The quotient of an integer by a positive integer, rounded to the nearest
    float; an infinity when it is out of range. *)
Definition int_truediv (a : Z) (b : positive) : pyfloat :=
  match a with
  | Z0 => S754_zero false
  | Zpos p => SFdiv 53 1024 (S754_finite false p 0) (S754_finite false b 0)
  | Zneg p => SFdiv 53 1024 (S754_finite true p 0) (S754_finite false b 0)
  end.

Inductive json : Type :=
| JNone
| JBool (b : bool)
| JInt (z : Z)
| JFloat (f : pyfloat)
| JStr (s : string)
| JList (l : list json)
| JDict (m : gmap string json).

Definition type_name (v : json) : string :=
  match v with
  | JNone => "NoneType"
  | JBool _ => "bool"
  | JInt _ => "int"
  | JFloat _ => "float"
  | JStr _ => "str"
  | JList _ => "list"
  | JDict _ => "dict"
  end.

(** [isinstance(v, float)]: [bool] and [int] are not [float]. *)
Definition isinstance_float (v : json) : bool :=
  match v with JFloat _ => true | _ => false end.

(** ** Exceptions *)

Inductive exn_class : Type :=
| ValueError
| TypeError
| KeyError
| IndexError
| AttributeError
| ZeroDivisionError
| OverflowError
| Exception_
| ExternalError (name : string).

#[global] Instance exn_class_eq_dec : EqDecision exn_class.
Proof. solve_decision. Defined.

(** [exn_str e] is the text of [str(e)].  All exceptions of the model are
    subclasses of [Exception]. *)
Record exn : Type := Exn { exn_cls : exn_class; exn_str : string }.

Definition result (A : Type) : Type := exn + A.

#[global] Instance result_ret : MRet result := fun A a => inr a.
#[global] Instance result_bind : MBind result := fun A B f r =>
  match r with inl e => inl e | inr a => f a end.

(** ** The monad of statements: state and exceptions *)

Definition M (S A : Type) : Type := S → result A * S.

#[global] Instance M_ret {S} : MRet (M S) := fun A a s => (inr a, s).
#[global] Instance M_bind {S} : MBind (M S) := fun A B f m s =>
  match m s with
  | (inr a, s') => f a s'
  | (inl e, s') => (inl e, s')
  end.

Definition raise {S A} (e : exn) : M S A := fun s => (inl e, s).
Definition lift {S A} (r : result A) : M S A := fun s => (r, s).
Definition modify {S} (f : S → S) : M S () := fun s => (inr (), f s).
Definition gets {S A} (f : S → A) : M S A := fun s => (inr (f s), s).

(** [try: body / except Exception as e: handler e]. *)
Definition try_except {S A} (body : M S A) (handler : exn → M S A) : M S A :=
  fun s => match body s with
           | (inl e, s') => handler e s'
           | (inr a, s') => (inr a, s')
           end.

(** [try: body / except (c1, c2, ...): handler]: other classes propagate. *)
Definition try_except_of {S A} (classes : list exn_class)
    (body : M S A) (handler : exn → M S A) : M S A :=
  fun s => match body s with
           | (inl e, s') =>
               if bool_decide (exn_cls e ∈ classes) then handler e s'
               else (inl e, s')
           | (inr a, s') => (inr a, s')
           end.

(** A block of statements that updates a local variable: the state is that
    of the process together with the variable.  [global] and [local] run a
    statement on one of the two, and [with_local init block] runs the block
    with the variable set to [init] and returns what the variable holds at
    the end, as a [return] of the variable after the block does. *)
Definition global {S L A} (m : M S A) : M (S * L) A :=
  fun sl => match m sl.1 with (r, s') => (r, (s', sl.2)) end.

Definition local {S L A} (m : M L A) : M (S * L) A :=
  fun sl => match m sl.2 with (r, l') => (r, (sl.1, l')) end.

Definition with_local {S L} (init : L) (block : M (S * L) ()) : M S L :=
  fun s => match block (s, init) with
           | (inr _, sl) => (inr sl.2, sl.1)
           | (inl e, sl) => (inl e, sl.1)
           end.

(** ** Built-in operations on values *)

Definition py_repr_key (k : string) : string := "'" +:+ k +:+ "'".

(** [v.get(k)] *)
Definition py_get (v : json) (k : string) : result json :=
  match v with
  | JDict m => inr (default JNone (m !! k))
  | _ => inl (Exn AttributeError
                ("'" +:+ type_name v +:+ "' object has no attribute 'get'"))
  end.

(** [v.get(k, d)] *)
Definition py_get_default (v : json) (k : string) (d : json) : result json :=
  match v with
  | JDict m => inr (default d (m !! k))
  | _ => inl (Exn AttributeError
                ("'" +:+ type_name v +:+ "' object has no attribute 'get'"))
  end.

(** [v[k]] for a string key [k] *)
Definition py_getitem (v : json) (k : string) : result json :=
  match v with
  | JDict m =>
      match m !! k with
      | Some x => inr x
      | None => inl (Exn KeyError (py_repr_key k))
      end
  | JList _ =>
      inl (Exn TypeError "list indices must be integers or slices, not str")
  | JStr _ => inl (Exn TypeError "string indices must be integers, not 'str'")
  | _ => inl (Exn TypeError
                ("'" +:+ type_name v +:+ "' object is not subscriptable"))
  end.

(** [v[i]] for a non-negative integer index [i] *)
Definition py_getitem_int (v : json) (i : nat) : result json :=
  match v with
  | JList l =>
      match l !! i with
      | Some x => inr x
      | None => inl (Exn IndexError "list index out of range")
      end
  | JStr s =>
      match String.get i s with
      | Some c => inr (JStr (String c EmptyString))
      | None => inl (Exn IndexError "string index out of range")
      end
  | JDict _ => inl (Exn KeyError (pretty i))
  | _ => inl (Exn TypeError
                ("'" +:+ type_name v +:+ "' object is not subscriptable"))
  end.

(** [v[:24]] *)
Definition py_slice24 (v : json) : result json :=
  match v with
  | JList l => inr (JList (take 24 l))
  | JStr s => inr (JStr (String.substring 0 24 s))
  | JDict _ => inl (Exn TypeError "unhashable type: 'slice'")
  | _ => inl (Exn TypeError
                ("'" +:+ type_name v +:+ "' object is not subscriptable"))
  end.

(** [len(v)] *)
Definition py_len (v : json) : result nat :=
  match v with
  | JList l => inr (length l)
  | JStr s => inr (String.length s)
  | JDict m => inr (size m)
  | _ => inl (Exn TypeError
                ("object of type '" +:+ type_name v +:+ "' has no len()"))
  end.

Definition unsupported_add (a b : json) : exn :=
  Exn TypeError ("unsupported operand type(s) for +: '" +:+ type_name a
                 +:+ "' and '" +:+ type_name b +:+ "'").

(** A Python number: an [int] (a [bool] is one) or a [float]. *)
Inductive number : Type :=
| NInt (z : Z)
| NFloat (f : pyfloat).

Definition number_value (v : json) : option number :=
  match v with
  | JInt z => Some (NInt z)
  | JBool b => Some (NInt (Z.b2z b))
  | JFloat f => Some (NFloat f)
  | _ => None
  end.

(** The items that iterating over [v] yields. *)
Definition py_iter (v : json) : result (list json) :=
  match v with
  | JList l => inr l
  | JStr s => inr ((λ c, JStr (String c EmptyString)) <$> String.list_ascii_of_string s)
  | JDict m => inr (JStr <$> (map_to_list m).*1)
  | _ => inl (Exn TypeError
                ("'" +:+ type_name v +:+ "' object is not iterable"))
  end.

(** The numbers at the front of a list of items, and the items from the
    first that is not a number on. *)
Fixpoint numbers_prefix (items : list json) : list number * list json :=
  match items with
  | [] => ([], [])
  | x :: items' =>
      match number_value x with
      | Some n => let rest := numbers_prefix items' in (n :: rest.1, rest.2)
      | None => ([], items)
      end
  end.

Section Sum.

(** The total of [sum] from the first float on.  While every item is an
    integer the total is their exact sum.  Once an item is a float the total
    is a float, and how the remaining numbers are added to it depends on the
    interpreter (one rounded addition per item up to CPython 3.11, a
    compensated summation from 3.12 on).  [float_sum total numbers] is the
    outcome for the integer [total] reached so far and the [numbers] that
    remain, the first of them a float: the float returned, or the
    [OverflowError] of an integer too large for a float. *)
Variable float_sum : Z → list number → result pyfloat.

(** The loop of [sum] from an integer total: the items are added left to
    right, and [total + x] raises for an item that is not a number. *)
Fixpoint sum_from (total : Z) (items : list json) : result json :=
  match items with
  | [] => inr (JInt total)
  | x :: items' =>
      match x with
      | JInt z => sum_from (total + z) items'
      | JBool b => sum_from (total + Z.b2z b) items'
      | JFloat _ =>
          total' ← float_sum total (numbers_prefix items).1;
          match (numbers_prefix items).2 with
          | [] => inr (JFloat total')
          | y :: _ => inl (unsupported_add (JFloat total') y)
          end
      | _ => inl (unsupported_add (JInt total) x)
      end
  end.

(** [sum(v)], starting from the integer 0. *)
Definition py_sum (v : json) : result json :=
  items ← py_iter v; sum_from 0 items.

End Sum.

(** [a / n] where [n] is a length: true division, always a [float].  The
    quotient of two integers is rounded once, and is an error when it is too
    large for a float. *)
Definition py_truediv (a : json) (n : nat) : result json :=
  let zero_division msg := inl (Exn ZeroDivisionError msg) in
  let of_int z :=
    if decide (n = 0) then zero_division "division by zero"
    else match int_truediv z (Pos.of_nat n) with
         | S754_infinity _ =>
             inl (Exn OverflowError
                    "integer division result too large for a float")
         | q => inr (JFloat q)
         end in
  match a with
  | JInt z => of_int z
  | JBool b => of_int (Z.b2z b)
  | JFloat f =>
      if decide (n = 0) then zero_division "float division by zero"
      else inr (JFloat (SFdiv 53 1024 f (float_of_int (Z.of_nat n))))
  | _ => inl (Exn TypeError
                ("unsupported operand type(s) for /: '" +:+ type_name a
                 +:+ "' and 'int'"))
  end.

(** ** The inbound request *)

(** What the handler sees of the Flask request: the outcome of parsing its
    body, which both [request.json] and [request.get_json()] return (or raise
    again). *)
Record Request : Type := { request_json : result json }.

Section Validation.

(** [datetime.strptime(s, "%Y-%m-%d")] applied to a string: [None] when it
    returns a date, [Some msg] when it raises [ValueError(msg)]. *)
Variable strptime_ymd : string → option string.

(** [datetime.strptime(date, "%Y-%m-%d")], whose result is not used. *)
Definition strptime (date : json) : result () :=
  match date with
  | JStr s =>
      match strptime_ymd s with
      | None => inr ()
      | Some msg => inl (Exn ValueError msg)
      end
  | _ => inl (Exn TypeError
                ("strptime() argument 1 must be str, not " +:+ type_name date))
  end.

(** [errors.append(msg)] *)
Definition append_error (msg : string) : M (list string) () :=
  modify (λ errors, errors ++ [msg]).

(** The loop [for i, point in enumerate(coordinates)], from index [i] on. *)
Fixpoint check_points (i : nat) (points : list json) : M (list string) () :=
  match points with
  | [] => mret ()
  | point :: points' =>
      match point with
      | JList [lon; lat] =>
          (if isinstance_float lon && isinstance_float lat then mret ()
           else append_error ("Point " +:+ pretty (i + 1)
                              +:+ " must contain two floats (lon, lat)."))
      | _ => append_error ("Point " +:+ pretty (i + 1)
                           +:+ " is not a list of two elements.")
      end;;
      check_points (S i) points'
  end.

Definition validate_request (request : Request) : list string :=
  let statements : M (list string) () :=
    try_except
      (coordinates ← lift (request_json request ≫= λ j, py_get j "coordinates");
       date ← lift (request_json request ≫= λ j, py_get j "date");
       match coordinates with
       | JList points =>
           if decide (length points < 4)
           then append_error "Coordinates must be a list with at least 4 points."
           else check_points 0 points
       | _ => append_error "Coordinates must be a list with at least 4 points."
       end;;
       try_except_of [ValueError; TypeError]
         (lift (strptime date))
         (λ _, append_error
                 "Date must be a valid string in 'YYYY-MM-DD' format."))
      (λ e, append_error ("validate_request: " +:+ exn_str e)) in
  (statements []).2.

End Validation.

(** ** The remote providers *)

(** The response object of [requests.get]: [status_code], [text], and the
    outcome of [response.json()]. *)
Record Response : Type := {
  status_code : Z;
  text : string;
  response_json : result json;
}.

(** The objects of the Earth Engine client.  The client evaluates nothing:
    each method call builds a description of the computation, which is sent to
    the provider by [getInfo].  The checks the client makes on its arguments
    while it builds a description are counted with the evaluation. *)
Inductive ee_Date : Type :=
| Date (date : json)
| Date_advance (d : ee_Date) (delta : Z) (unit : string).

Inductive ee_Geometry : Type :=
| Polygon (coordinates : json).

Inductive ee_ImageCollection : Type :=
| ImageCollection (id : string)
| filterBounds (c : ee_ImageCollection) (geometry : ee_Geometry)
| filterDate (c : ee_ImageCollection) (start end_ : ee_Date)
| sort (c : ee_ImageCollection) (property : string).

Inductive ee_Image : Type :=
| first (c : ee_ImageCollection)
| normalizedDifference (image : ee_Image) (bandNames : list string)
| rename (image : ee_Image) (name : string)
| clip (image : ee_Image) (geometry : ee_Geometry).

Inductive ee_Reducer : Type :=
| Reducer_mean.

Inductive ee_Dictionary : Type :=
| reduceRegion (image : ee_Image) (reducer : ee_Reducer)
    (geometry : ee_Geometry) (scale maxPixels : json).

Inductive ee_ComputedObject : Type :=
| Dictionary_get (d : ee_Dictionary) (key : string).

(** What lies outside the process: the weather provider behind
    [requests.get], the imagery provider behind [ee.Initialize] ([None]
    when it returns) and [getInfo], and the standard output behind [print]:
    [print_raises [v1; ...; vn]] is [None] when [print(v1, ..., vn)] returns
    and the exception when it raises, as it does when the text of a value
    cannot be made (an integer of more digits than the interpreter
    converts) or cannot be written. *)
Record world : Type := {
  requests_get : string → result Response;
  ee_Initialize : option exn;
  ee_getInfo : ee_ComputedObject → result json;
  print_raises : list json → option exn;
}.

(** The calls the handler makes, in the order it makes them. *)
Inductive call : Type :=
| Call_get_open_meteo_weather (lat lon date : json)
| Call_requests_get (url : string)
| Call_get_ndvi_data (coordinates date : json)
| Call_ee_Initialize
| Call_getInfo (query : ee_ComputedObject).

(** The state of the process: the flag [ee.data._initialized] and the calls
    made so far. *)
Record state : Type := State {
  ee_initialized : bool;
  calls : list call;
}.

Definition record_call (c : call) : M state () :=
  modify (λ s, State (ee_initialized s) (calls s ++ [c])).

(** The dictionary [{"data": ..., "errors": [...]}] both reducers return,
    and the same as a value. *)
Record fetch_result : Type := FetchResult {
  data : gmap string json;
  errors : list string;
}.

Definition fetch_result_json (r : fetch_result) : json :=
  JDict {[ "data" := JDict (data r); "errors" := JList (JStr <$> errors r) ]}.

Section Pipeline.

(** [format(v)], which an f-string applies to each interpolated value, and
    [repr(s)] of a string. *)
Variable py_format : json → string.
Variable py_repr : string → string.

(** The float additions of [sum], as above. *)
Variable float_sum : Z → list number → result pyfloat.

(** [jsonify(v)] for a mapping [v] that holds numbers: [None] when it returns
    the response, whose body is [v], and the exception when it raises, as it
    does for an integer of more digits than the interpreter converts.  A
    mapping that holds only strings is always serialized. *)
Variable jsonify_raises : json → option exn.

Variable strptime_ymd : string → option string.

Variable W : world.

(** [print(v1, ..., vn)] *)
Definition py_print (args : list json) : result () :=
  match print_raises W args with
  | Some e => inl e
  | None => inr ()
  end.

(** ** The weather reducer *)

Definition open_meteo_url (lat lon date : json) : string :=
  "https://api.open-meteo.com/v1/forecast?"
  +:+ "latitude=" +:+ py_format lat +:+ "&longitude=" +:+ py_format lon +:+ "&"
  +:+ "hourly=temperature_2m,relativehumidity_2m,wind_speed_10m,et0_fao_evapotranspiration&"
  +:+ "start=" +:+ py_format date +:+ "T00:00:00Z&end=" +:+ py_format date
  +:+ "T23:59:59Z".

(** [Exception("Failed to fetch data:", text)]: [str] of an exception with
    two arguments is the [repr] of the pair. *)
Definition fetch_failed (text : string) : exn :=
  Exn Exception_ ("('Failed to fetch data:', " +:+ py_repr text +:+ ")").

(** [sum(series) / len(series)] *)
Definition mean_of (series : json) : result json :=
  total ← py_sum float_sum series; n ← py_len series; py_truediv total n.

Definition get_open_meteo_weather (lat lon date : json) : M state fetch_result :=
  record_call (Call_get_open_meteo_weather lat lon date);;
  let response_ := FetchResult ∅ [] in
  try_except
    (let url := open_meteo_url lat lon date in
     record_call (Call_requests_get url);;
     response ← lift (requests_get W url);
     (if bool_decide (status_code response ≠ 200%Z)
      then raise (fetch_failed (text response)) else mret ());;
     data ← lift (response_json response);
     hourly_data ← lift (py_getitem data "hourly");
     temperature ← lift (py_getitem hourly_data "temperature_2m" ≫= py_slice24);
     humidity ← lift (py_getitem hourly_data "relativehumidity_2m" ≫= py_slice24);
     wind_speed ← lift (py_getitem hourly_data "wind_speed_10m" ≫= py_slice24);
     et0 ← lift (py_get_default hourly_data "et0_fao_evapotranspiration"
                   (JList (replicate 24 (JInt 0))) ≫= py_slice24);
     mean_temp ← lift (mean_of temperature);
     mean_humidity ← lift (mean_of humidity);
     mean_wind_speed ← lift (mean_of wind_speed);
     sum_et0 ← lift (py_sum float_sum et0);
     let weather_data : gmap string json :=
       {[ "mean_temperature_2m_C" := mean_temp;
          "mean_humidity_2m_%" := mean_humidity;
          "mean_wind_speed_10m_m_s" := mean_wind_speed;
          "sum_et0_mm" := sum_et0 ]} in
     mret (FetchResult weather_data (errors response_)))
    (λ e, mret (FetchResult (data response_)
                  (errors response_
                   ++ ["get_open_meteo_weather: " +:+ exn_str e]))).

(** ** The vegetation-index reducer *)

Definition ndvi_query (coordinates date : json) : ee_ComputedObject :=
  let start_date := Date_advance (Date date) (-1) "day" in
  let end_date := Date_advance (Date date) 1 "day" in
  let polygon := Polygon coordinates in
  let image :=
    first (sort (filterDate (filterBounds (ImageCollection "COPERNICUS/S2")
                               polygon)
                   start_date end_date)
             "CLOUDY_PIXEL_PERCENTAGE") in
  let ndvi := clip (rename (normalizedDifference image ["B8"; "B4"]) "NDVI")
                polygon in
  Dictionary_get
    (reduceRegion ndvi Reducer_mean polygon (JInt 10) (JFloat 1000000000))
    "NDVI".

(** The dictionary [response] is updated in place: the [except] clause finds
    in it what the statements before the raise have stored. *)
Definition get_ndvi_data (coordinates date : json) : M state fetch_result :=
  record_call (Call_get_ndvi_data coordinates date);;
  with_local (FetchResult ∅ [])
    (try_except
       (initialized ← global (gets ee_initialized);
        (if negb initialized then
           global (record_call Call_ee_Initialize);;
           match ee_Initialize W with
           | Some e => raise e
           | None => global (modify (λ s, State true (calls s)))
           end
         else mret ());;
        let mean_ndvi := ndvi_query coordinates date in
        global (record_call (Call_getInfo mean_ndvi));;
        ndvi_mean_value ← lift (ee_getInfo W mean_ndvi);
        local (modify (λ response,
                 FetchResult (<["ndvi_mean" := ndvi_mean_value]> (data response))
                   (errors response)));;
        lift (py_print [JStr "NDVI mean value:"; ndvi_mean_value]))
       (λ e, local (modify (λ response,
                      FetchResult (data response)
                        (errors response
                         ++ ["get_ndvi_data: " +:+ exn_str e]))))).

(** ** The handler *)

(** [jsonify] of the two failure bodies, which hold only strings. *)
Definition errors_body (errs : list string) : json :=
  JDict {[ "errors" := JList (JStr <$> errs) ]}.

Definition error_body (msg : string) : json :=
  JDict {[ "error" := JStr msg ]}.

(** [jsonify(v)] of a body that holds numbers. *)
Definition jsonify (v : json) : result json :=
  match jsonify_raises v with
  | Some e => inl e
  | None => inr v
  end.

(** [d.update(other)] *)
Definition py_update (d other : gmap string json) : gmap string json :=
  other ∪ d.

(** The handler returns the body and the status code. *)
Definition get_data (request : Request) : M state (json * Z) :=
  let response_status := JStr "success" in
  let response_data : gmap string json := ∅ in
  try_except
    (let errors_ := validate_request strptime_ymd request in
     if bool_decide (errors_ ≠ []) then mret (errors_body errors_, 400%Z)
     else
       json_ ← lift (request_json request);
       coordinates ← lift (py_getitem json_ "coordinates");
       date ← lift (py_getitem json_ "date");
       c00 ← lift (py_getitem_int coordinates 0 ≫= λ p, py_getitem_int p 0);
       c01 ← lift (py_getitem_int coordinates 0 ≫= λ p, py_getitem_int p 1);
       weather_data ← get_open_meteo_weather c00 c01 date;
       if bool_decide (errors weather_data ≠ [])
       then mret (errors_body (errors weather_data), 400%Z)
       else
         let response_data := py_update response_data (data weather_data) in
         ndvi_data ← get_ndvi_data coordinates date;
         if bool_decide (errors ndvi_data ≠ [])
         then mret (errors_body (errors ndvi_data), 400%Z)
         else
           lift (py_print [fetch_result_json ndvi_data]);;
           let response_data := py_update response_data (data ndvi_data) in
           let response := JDict {[ "status" := response_status;
                                    "data" := JDict response_data ]} in
           lift (py_print [response]);;
           body ← lift (jsonify response);
           mret (body, 200%Z))
    (λ e, mret (error_body (exn_str e), 400%Z)).

End Pipeline.

(** ** A reference model of the imagery provider *)

(** The imagery provider is a remote service, of which the source holds only
    the query.  The reference model below evaluates a query as section 4.3 of
    the design describes.  Which scenes exist, which of them a geometry or a
    window selects, the value of a property of a scene and the pixel
    statistics of a scene are left to the provider. *)

Section Provider.

Context {scene : Type}.

Record provider : Type := {
  catalog : string → list scene;
  intersects : scene → ee_Geometry → bool;
  acquired_within : scene → ee_Date → ee_Date → bool;
  scene_property : scene → string → Q;
  region_statistic : scene → ee_Dictionary → string → result json;
}.

Variable P : provider.

Fixpoint insert_by (key : scene → Q) (x : scene) (l : list scene) : list scene :=
  match l with
  | [] => [x]
  | y :: l' =>
      if Qle_bool (key x) (key y) then x :: l else y :: insert_by key x l'
  end.

(** Modelled from the spec: "sort by ascending cloud-cover percentage".  An
    insertion sort, ascending and stable. *)
Definition sort_by (key : scene → Q) (l : list scene) : list scene :=
  foldr (insert_by key) [] l.

(** Modelled from the spec: "scenes intersecting the polygon within the
    window", sorted by a property. *)
Fixpoint collection_scenes (c : ee_ImageCollection) : list scene :=
  match c with
  | ImageCollection id => catalog P id
  | filterBounds c g => filter (λ x, intersects P x g) (collection_scenes c)
  | filterDate c start end_ =>
      filter (λ x, acquired_within P x start end_) (collection_scenes c)
  | sort c property =>
      sort_by (λ x, scene_property P x property) (collection_scenes c)
  end.

(** Modelled from the spec: "take the first (least cloudy)".  The scene an
    image expression is computed from, if there is one. *)
Fixpoint image_scene (i : ee_Image) : option scene :=
  match i with
  | first c => head (collection_scenes c)
  | normalizedDifference i _ | rename i _ | clip i _ => image_scene i
  end.

Definition no_scene : exn :=
  Exn (ExternalError "EEException")
    "Image.normalizedDifference: Parameter 'input' is required and may not be null.".

(** Modelled from the spec: "If no scene matches, the subsequent index
    computation fails"; otherwise the provider reduces the index of the
    scene over the region. *)
Definition provider_getInfo (query : ee_ComputedObject) : result json :=
  match query with
  | Dictionary_get (reduceRegion image _ _ _ _ as d) key =>
      match image_scene image with
      | None => inl no_scene
      | Some x => region_statistic P x d key
      end
  end.

(** The scenes of the Sentinel-2 collection that match a polygon and the
    window around a date. *)
Definition matching_scenes (coordinates date : json) : list scene :=
  filter (λ x, acquired_within P x (Date_advance (Date date) (-1) "day")
                 (Date_advance (Date date) 1 "day"))
    (filter (λ x, intersects P x (Polygon coordinates))
       (catalog P "COPERNICUS/S2")).

End Provider.

Arguments provider : clear implicits.

(** ** Vocabulary of the properties *)

Section ValidationVocabulary.

Variable strptime_ymd : string → option string.

(** The errors the loop of [validate_request] appends for one point, and
    for the points of a list from index [i] on. *)
Definition point_errors (i : nat) (point : json) : list string :=
  (check_points i [point] []).2.

Definition points_errors (i : nat) (points : list json) : list string :=
  concat (imap (λ j, point_errors (i + j)) points).

(** The two messages about the point at index [i]. *)
Definition floats_message (i : nat) : string :=
  "Point " +:+ pretty (i + 1) +:+ " must contain two floats (lon, lat).".

Definition shape_message (i : nat) : string :=
  "Point " +:+ pretty (i + 1) +:+ " is not a list of two elements.".

Definition coordinates_error : string :=
  "Coordinates must be a list with at least 4 points.".

Definition date_error : string :=
  "Date must be a valid string in 'YYYY-MM-DD' format.".

(** The errors of the coordinates rule and of the date rule. *)
Definition coordinates_errors (coordinates : json) : list string :=
  match coordinates with
  | JList points =>
      if decide (length points < 4) then [coordinates_error]
      else points_errors 0 points
  | _ => [coordinates_error]
  end.

Definition date_errors (date : json) : list string :=
  match strptime strptime_ymd date with
  | inr _ => []
  | inl _ => [date_error]
  end.

(** A point as the data model wants it: a list of two floats. *)
Definition float_pair (point : json) : Prop :=
  ∃ lon lat, point = JList [JFloat lon; JFloat lat].

(** The three rules of the validator, in the words of the design: the body
    is a mapping whose [coordinates] is a list of at least four points,
    each a pair of floats, and whose [date] parses. *)
Definition accepted (request : Request) : Prop :=
  ∃ body points date,
    request_json request = inr (JDict body)
    ∧ body !! "coordinates" = Some (JList points)
    ∧ 4 ≤ length points
    ∧ Forall float_pair points
    ∧ body !! "date" = Some (JStr date)
    ∧ strptime_ymd date = None.

End ValidationVocabulary.

Section ReducerVocabulary.

Variable py_format : json → string.
Variable py_repr : string → string.
Variable float_sum : Z → list number → result pyfloat.
Variable jsonify_raises : json → option exn.
Variable W : world.

(** The statistics [get_open_meteo_weather] computes from a parsed response
    body, as a function of that body. *)
Definition weather_statistics (data : json) : result (gmap string json) :=
  hourly_data ← py_getitem data "hourly";
  temperature ← py_getitem hourly_data "temperature_2m" ≫= py_slice24;
  humidity ← py_getitem hourly_data "relativehumidity_2m" ≫= py_slice24;
  wind_speed ← py_getitem hourly_data "wind_speed_10m" ≫= py_slice24;
  et0 ← py_get_default hourly_data "et0_fao_evapotranspiration"
          (JList (replicate 24 (JInt 0))) ≫= py_slice24;
  mean_temp ← mean_of float_sum temperature;
  mean_humidity ← mean_of float_sum humidity;
  mean_wind_speed ← mean_of float_sum wind_speed;
  sum_et0 ← py_sum float_sum et0;
  mret ({[ "mean_temperature_2m_C" := mean_temp;
           "mean_humidity_2m_%" := mean_humidity;
           "mean_wind_speed_10m_m_s" := mean_wind_speed;
           "sum_et0_mm" := sum_et0 ]} : gmap string json).

(** What the body of the [try] of [get_open_meteo_weather] ends in. *)
Definition weather_outcome (lat lon date : json) : result (gmap string json) :=
  response ← requests_get W (open_meteo_url py_format lat lon date);
  (if bool_decide (status_code response ≠ 200%Z)
   then inl (fetch_failed py_repr (text response)) else inr ());;
  data ← response_json response;
  weather_statistics data.

(** What the provider answers to [get_ndvi_data], from a state in which the
    session is or is not initialized. *)
Definition ndvi_outcome (initialized : bool) (coordinates date : json)
    : result json :=
  (if initialized then inr ()
   else match ee_Initialize W with Some e => inl e | None => inr () end);;
  ee_getInfo W (ndvi_query coordinates date).

(** The error a reducer named [name] appends for an exception. *)
Definition reducer_error (name : string) (e : exn) : string :=
  name +:+ ": " +:+ exn_str e.

(** The dictionary [get_ndvi_data] returns for such an answer: the value is
    stored before it is printed. *)
Definition ndvi_result (initialized : bool) (coordinates date : json)
    : fetch_result :=
  match ndvi_outcome initialized coordinates date with
  | inl e => FetchResult ∅ [reducer_error "get_ndvi_data" e]
  | inr v =>
      FetchResult {[ "ndvi_mean" := v ]}
        match print_raises W [JStr "NDVI mean value:"; v] with
        | Some e => [reducer_error "get_ndvi_data" e]
        | None => []
        end
  end.

(** The calls of [get_ndvi_data] after the one that records its invocation,
    and the state it leaves. *)
Definition ndvi_provider_calls (initialized : bool) (coordinates date : json)
    : list call :=
  if initialized then [Call_getInfo (ndvi_query coordinates date)]
  else match ee_Initialize W with
       | Some _ => [Call_ee_Initialize]
       | None => [Call_ee_Initialize; Call_getInfo (ndvi_query coordinates date)]
       end.

Definition ndvi_final_state (s : state) (coordinates date : json) : state :=
  State (ee_initialized s || bool_decide (ee_Initialize W = None))
    (calls s ++ Call_get_ndvi_data coordinates date
             :: ndvi_provider_calls (ee_initialized s) coordinates date).

(** The dictionary a reducer named [name] returns for an outcome. *)
Definition reducer_result (name : string) (r : result (gmap string json))
    : fetch_result :=
  match r with
  | inr d => FetchResult d []
  | inl e => FetchResult ∅ [name +:+ ": " +:+ exn_str e]
  end.

(** The body of the success response. *)
Definition success_body (d : gmap string json) : json :=
  JDict {[ "status" := JStr "success"; "data" := JDict d ]}.

(** What the handler does once both reducers have reported no error: it
    prints the dictionary of the vegetation reducer, prints the response and
    serializes it. *)
Definition merge_outcome (ndvi_data : fetch_result) (merged : gmap string json)
    : result json :=
  py_print W [fetch_result_json ndvi_data];;
  py_print W [success_body merged];;
  jsonify jsonify_raises (success_body merged).

(** The body and the status with which the handler answers that outcome. *)
Definition merge_response (r : result json) : json * Z :=
  match r with
  | inr body => (body, 200%Z)
  | inl e => (error_body (exn_str e), 400%Z)
  end.

End ReducerVocabulary.

(** The head of a list of scenes is below all its elements. *)
Definition head_least {scene : Type} (key : scene → Q) (l : list scene) : Prop :=
  ∀ h, head l = Some h → ∀ y, y ∈ l → (key h <= key y)%Q.

(** The image expression a query reduces. *)
Definition query_image (query : ee_ComputedObject) : ee_Image :=
  match query with Dictionary_get (reduceRegion image _ _ _ _) _ => image end.


Definition float_rational (f : pyfloat) : option Q :=
  match f with
  | S754_zero _ => Some 0%Q
  | S754_finite s m e =>
      Some ((if s then -1 else 1) * inject_Z (Z.pos m) * Qpower 2 e)%Q
  | _ => None
  end.

Definition number_rational (v : json) : option Q :=
  match number_value v with
  | Some (NInt z) => Some (inject_Z z)
  | Some (NFloat f) => float_rational f
  | None => None
  end.


(** ** Sample inputs *)

(** Stand-ins for the library functions the model is parametric in, used to
    run it on examples.  [sample_format] writes a float that is an integer as
    Python does, [sample_strptime] accepts the zero-padded dates of the
    proleptic Gregorian calendar, [sample_float_sum] adds with one rounded
    addition per item, and [sample_print] and [sample_jsonify] raise for an
    integer of more than 4300 digits. *)
Definition sample_format_float (f : pyfloat) : string :=
  match f with
  | S754_zero s => if s then "-0.0" else "0.0"
  | S754_infinity s => if s then "-inf" else "inf"
  | S754_nan => "nan"
  | S754_finite s m e =>
      (if s then "-" else EmptyString)
      +:+ match e with
          | Z0 => pretty (Z.pos m) +:+ ".0"
          | Zpos _ => pretty (Z.pos m * 2 ^ e)%Z +:+ ".0"
          | Zneg k =>
              if decide (Z.pos m mod 2 ^ Z.pos k = 0)%Z
              then pretty (Z.pos m / 2 ^ Z.pos k)%Z +:+ ".0"
              else pretty (Z.pos m) +:+ "/2**" +:+ pretty (Z.pos k)
          end
  end.

Definition sample_format (v : json) : string :=
  match v with
  | JNone => "None"
  | JBool b => if b then "True" else "False"
  | JInt z => pretty z
  | JFloat f => sample_format_float f
  | JStr s => s
  | JList _ => "[...]"
  | JDict _ => "{...}"
  end.

Definition sample_float_sum (total : Z) (numbers : list number)
    : result pyfloat :=
  let to_float n :=
    match n with
    | NFloat f => inr f
    | NInt z =>
        match float_of_int z with
        | S754_infinity _ =>
            inl (Exn OverflowError "int too large to convert to float")
        | f => inr f
        end
    end in
  foldl (λ acc n, a ← acc; x ← to_float n; inr (SFadd 53 1024 a x))
    (to_float (NInt total)) numbers.

Fixpoint holds_int (P : Z → bool) (v : json) : bool :=
  match v with
  | JInt z => P z
  | JList l => existsb (holds_int P) l
  | JDict m => map_fold (λ _ x found, holds_int P x || found) false m
  | _ => false
  end.

(** The largest integer of 4300 digits, the most the interpreter converts to
    text by default. *)
Definition sample_longest_integer : Z := Eval vm_compute in (10 ^ 4300 - 1)%Z.

Definition sample_conversion_error : exn :=
  Exn ValueError
    "Exceeds the limit (4300 digits) for integer string conversion; use sys.set_int_max_str_digits() to increase the limit".

Definition sample_jsonify (v : json) : option exn :=
  if holds_int (λ z, sample_longest_integer <? Z.abs z)%Z v
  then Some sample_conversion_error else None.

Definition sample_print (args : list json) : option exn :=
  sample_jsonify (JList args).

(** The float nearest to a fraction, as a decimal literal denotes it. *)
Definition float_ratio (a : Z) (b : positive) : pyfloat := int_truediv a b.

Definition sample_repr (s : string) : string := "'" +:+ s +:+ "'".

Fixpoint digits_value (acc : nat) (s : string) : option nat :=
  match s with
  | EmptyString => Some acc
  | String c s' => d ← Ascii.is_nat c; digits_value (10 * acc + d) s'
  end.

Definition days_in_month (year month : nat) : nat :=
  match month with
  | 2 => if decide (year mod 4 = 0 ∧ (year mod 100 ≠ 0 ∨ year mod 400 = 0))
         then 29 else 28
  | 4 | 6 | 9 | 11 => 30
  | _ => 31
  end.

Definition sample_strptime (s : string) : option string :=
  let mismatch := Some ("time data " +:+ sample_repr s
                        +:+ " does not match format '%Y-%m-%d'") in
  if decide (String.length s = 10 ∧ String.substring 4 1 s = "-"
             ∧ String.substring 7 1 s = "-") then
    match digits_value 0 (String.substring 0 4 s),
          digits_value 0 (String.substring 5 2 s),
          digits_value 0 (String.substring 8 2 s) with
    | Some year, Some month, Some day =>
        if decide (1 ≤ year ∧ 1 ≤ month ≤ 12) then
          if decide (1 ≤ day ≤ days_in_month year month) then None
          else Some "day is out of range for month"
        else mismatch
    | _, _, _ => mismatch
    end
  else mismatch.

(** The request of scenario A of the design, and the same with integers
    (scenario B). *)
Definition sample_points : list json :=
  [JList [JFloat 10; JFloat 20]; JList [JFloat 10; JFloat 21];
   JList [JFloat 11; JFloat 21]; JList [JFloat 11; JFloat 20]].

Definition sample_body : gmap string json :=
  {[ "coordinates" := JList sample_points; "date" := JStr "2024-06-01" ]}.

Definition sample_request : Request :=
  {| request_json := inr (JDict sample_body) |}.

Definition sample_points_integers : list json :=
  [JList [JInt 10; JInt 20]; JList [JInt 10; JInt 21];
   JList [JInt 11; JInt 21]; JList [JInt 11; JInt 20]].

Definition sample_body_integers : gmap string json :=
  {[ "coordinates" := JList sample_points_integers;
     "date" := JStr "2024-06-01" ]}.

Definition sample_request_integers : Request :=
  {| request_json := inr (JDict sample_body_integers) |}.

(** Hourly series: 25 temperatures of which the last is not a number, and
    shorter series of mixed integers and floats. *)
Definition sample_temperature : list json := replicate 24 (JFloat 10) ++ [JNone].
Definition sample_humidity : list json := [JInt 50; JInt 71].
Definition sample_wind_speed : list json := [JFloat (float_ratio 7 2)].
Definition sample_et0 : list json :=
  [JFloat (float_ratio 1 10); JFloat (float_ratio 3 10)].

Definition sample_hourly : gmap string json :=
  {[ "temperature_2m" := JList sample_temperature;
     "relativehumidity_2m" := JList sample_humidity;
     "wind_speed_10m" := JList sample_wind_speed;
     "et0_fao_evapotranspiration" := JList sample_et0 ]}.

(** An hourly mapping without evapotranspiration whose temperature series is
    empty. *)
Definition sample_hourly_no_temperatures : gmap string json :=
  {[ "temperature_2m" := JList [];
     "relativehumidity_2m" := JList sample_humidity;
     "wind_speed_10m" := JList sample_wind_speed ]}.

(** The same with temperatures. *)
Definition sample_hourly_no_et0 : gmap string json :=
  {[ "temperature_2m" := JList sample_temperature;
     "relativehumidity_2m" := JList sample_humidity;
     "wind_speed_10m" := JList sample_wind_speed ]}.

(** A world whose weather provider answers every request with [status] and
    the hourly mapping [hourly], and whose imagery provider answers every
    query with [ndvi]. *)
Definition sample_world (status : Z) (hourly : gmap string json)
    (ndvi : result json) : world :=
  {| requests_get := λ _,
       inr {| status_code := status; text := "body";
              response_json := inr (JDict {[ "hourly" := JDict hourly ]}) |};
     ee_Initialize := None;
     ee_getInfo := λ _, ndvi;
     print_raises := sample_print |}.

Definition sample_state : state := State true [].

(** A catalogue of three scenes over the sample polygon: the day of June 2024
    on which each was acquired, its cloud cover and the mean index it yields.
    The window of a query for a date in that month holds the scenes of the
    day before and of the day itself. *)
Record sample_scene : Type := {
  scene_day : nat;
  scene_cloud : Q;
  scene_ndvi : pyfloat;
}.

Definition sample_day (d : ee_Date) : option Z :=
  match d with
  | Date_advance (Date (JStr s)) delta "day" =>
      day ← digits_value 0 (String.substring 8 2 s);
      Some (Z.of_nat day + delta)%Z
  | _ => None
  end.

Definition sample_provider : provider sample_scene :=
  {| catalog id :=
       if decide (id = "COPERNICUS/S2")
       then [ {| scene_day := 1; scene_cloud := 40;
                 scene_ndvi := float_ratio 1 2 |};
              {| scene_day := 1; scene_cloud := 5;
                 scene_ndvi := float_ratio 3 5 |};
              {| scene_day := 9; scene_cloud := 0;
                 scene_ndvi := float_ratio 7 10 |} ]
       else [];
     intersects _ _ := true;
     acquired_within x start end_ :=
       match sample_day start, sample_day end_ with
       | Some a, Some b =>
           bool_decide (a ≤ Z.of_nat (scene_day x) < b)%Z
       | _, _ => false
       end;
     scene_property x _ := scene_cloud x;
     region_statistic x _ _ := inr (JFloat (scene_ndvi x)) |}.

(** The sample world with the sample catalogue behind [getInfo]. *)
Definition sample_provider_world : world :=
  {| requests_get := requests_get (sample_world 200 sample_hourly (inr JNone));
     ee_Initialize := None;
     ee_getInfo := provider_getInfo sample_provider;
     print_raises := sample_print |}.

(** ** Vocabulary of the further properties *)

(** [isinstance(point, list) and len(point) == 2], and the test that a point
    passes both checks of the loop. *)
Definition is_pair (point : json) : bool :=
  match point with JList [_; _] => true | _ => false end.

Definition is_float_pair (point : json) : bool :=
  match point with
  | JList [lon; lat] => isinstance_float lon && isinstance_float lat
  | _ => false
  end.

(** A Python number as [sum] returns it: an [int] or a [float]. *)
Definition is_int_or_float (v : json) : Prop :=
  (∃ z, v = JInt z) ∨ (∃ q, v = JFloat q).

(** The four hourly series the weather reducer reads. *)
Definition hourly_keys : list string :=
  ["temperature_2m"; "relativehumidity_2m"; "wind_speed_10m";
   "et0_fao_evapotranspiration"].

(** ** Further sample inputs *)

(** Four points of which the second is a null, the third a pair of integers
    and the fourth a list of one float. *)
Definition sample_points_malformed : list json :=
  [JList [JFloat 10; JFloat 20]; JNone; JList [JInt 1; JInt 2];
   JList [JFloat 1]].

Definition sample_request_malformed : Request :=
  {| request_json :=
       inr (JDict {[ "coordinates" := JList sample_points_malformed;
                     "date" := JInt 20240601 ]}) |}.

(** A request whose body is a list, and one whose body cannot be parsed. *)
Definition sample_request_list : Request := {| request_json := inr (JList []) |}.


(** The sample hourly mapping with two more temperatures, with a null among
    the wind speeds, with a null for the evapotranspiration, and with an
    empty evapotranspiration series. *)
Definition sample_hourly_longer : gmap string json :=
  <["temperature_2m" :=
      JList (replicate 24 (JFloat 10) ++ [JFloat 99; JStr "n/a"])]>
    sample_hourly.

Definition sample_hourly_null_entry : gmap string json :=
  <["wind_speed_10m" := JList [JFloat 3; JNone]]> sample_hourly.

Definition sample_hourly_null_et0 : gmap string json :=
  <["et0_fao_evapotranspiration" := JNone]> sample_hourly.

Definition sample_hourly_empty_et0 : gmap string json :=
  <["et0_fao_evapotranspiration" := JList []]> sample_hourly.



Definition sample_hourly_long_digits : gmap string json :=
  <["et0_fao_evapotranspiration" :=
      JList (replicate 24 (JInt sample_longest_integer))]> sample_hourly.

(** The sample world with an imagery provider that answers an integer of
    4301 digits. *)
Definition sample_world_long_ndvi : world :=
  sample_world 200 sample_hourly (inr (JInt (sample_longest_integer + 1))).

(** A world whose weather provider answers every request with status 200 and
    the parsed body [body], and a world in which the imagery session cannot
    be initialized. *)
Definition sample_world_of_body (body : json) : world :=
  {| requests_get := λ _,
       inr {| status_code := 200; text := "body"; response_json := inr body |};
     ee_Initialize := None;
     ee_getInfo := λ _, inr JNone;
     print_raises := sample_print |}.

Definition sample_world_no_session : world :=
  {| requests_get := requests_get (sample_world 200 sample_hourly (inr JNone));
     ee_Initialize :=
       Some (Exn (ExternalError "EEException") "Please authorize access");
     ee_getInfo := λ _, inr (JFloat (float_ratio 3 5));
     print_raises := sample_print |}.

(** * Properties *)

(** ** Runs of the model on the sample inputs *)

(** Scenario B of the design: integers are not floats. *)
Example validate_request_integers :
  validate_request sample_strptime sample_request_integers
  = ["Point 1 must contain two floats (lon, lat).";
     "Point 2 must contain two floats (lon, lat).";
     "Point 3 must contain two floats (lon, lat).";
     "Point 4 must contain two floats (lon, lat)."].
Proof. vm_compute. reflexivity. Qed.

(** Scenario C of the design: a date in another format. *)
Example validate_request_date_format :
  validate_request sample_strptime
    {| request_json :=
         inr (JDict (<["date" := JStr "06/01/2024"]> sample_body)) |}
  = ["Date must be a valid string in 'YYYY-MM-DD' format."].
Proof. vm_compute. reflexivity. Qed.

(** All rules are evaluated: a short list and a missing date give two
    errors; a body that is not a mapping gives the generic one. *)
Example validate_request_two_errors :
  validate_request sample_strptime
    {| request_json := inr (JDict {[ "coordinates" := JList [JNone] ]}) |}
  = ["Coordinates must be a list with at least 4 points.";
     "Date must be a valid string in 'YYYY-MM-DD' format."].
Proof. vm_compute. reflexivity. Qed.

Example validate_request_not_a_mapping :
  validate_request sample_strptime {| request_json := inr (JList []) |}
  = ["validate_request: 'list' object has no attribute 'get'"].
Proof. vm_compute. reflexivity. Qed.

(** The statistics of the sample series: the 25th temperature is not read,
    integers and floats mix, and the evapotranspiration is summed. *)
Example get_open_meteo_weather_sample :
  (get_open_meteo_weather sample_format sample_repr sample_float_sum
     (sample_world 200 sample_hourly (inr JNone))
     (JFloat 10) (JFloat 20) (JStr "2024-06-01") sample_state).1
  = inr (FetchResult {[ "mean_temperature_2m_C" := JFloat 10;
                        "mean_humidity_2m_%" := JFloat (float_ratio 121 2);
                        "mean_wind_speed_10m_m_s" := JFloat (float_ratio 7 2);
                        "sum_et0_mm" := JFloat (float_ratio 4 10) ]} []).
Proof. vm_compute. reflexivity. Qed.

(** A null among the first 24 entries makes the sum fail. *)
Example get_open_meteo_weather_null_entry :
  (get_open_meteo_weather sample_format sample_repr sample_float_sum
     (sample_world 200
        (<["wind_speed_10m" := JList [JFloat 3; JNone]]> sample_hourly)
        (inr JNone))
     (JFloat 10) (JFloat 20) (JStr "2024-06-01") sample_state).1
  = inr (FetchResult ∅
           ["get_open_meteo_weather: unsupported operand type(s) for +: 'float' and 'NoneType'"]).
Proof. vm_compute. reflexivity. Qed.

(** Of the two scenes in the window around 2 June the less cloudy one is
    selected, although it comes second in the catalogue. *)
Example sample_selection :
  image_scene sample_provider
    (query_image (ndvi_query (JList sample_points) (JStr "2024-06-02")))
  = Some {| scene_day := 1; scene_cloud := 5; scene_ndvi := float_ratio 3 5 |}.
Proof. vm_compute. reflexivity. Qed.

(** Around 20 June no scene matches. *)
Example get_ndvi_data_no_scene :
  (get_ndvi_data sample_provider_world (JList sample_points)
     (JStr "2024-06-20") sample_state).1
  = inr (FetchResult ∅
           ["get_ndvi_data: Image.normalizedDifference: Parameter 'input' is required and may not be null."]).
Proof. vm_compute. reflexivity. Qed.

(** Scenario A of the design: status 200, and the calls in their order. *)
Example get_data_sample_calls :
  let run := get_data sample_format sample_repr sample_float_sum sample_jsonify
               sample_strptime sample_provider_world
               {| request_json :=
                    inr (JDict (<["date" := JStr "2024-06-02"]> sample_body)) |}
               sample_state in
  (∃ payload, run.1 = inr (payload, 200%Z))
  ∧ calls run.2
    = [Call_get_open_meteo_weather (JFloat 10) (JFloat 20) (JStr "2024-06-02");
       Call_requests_get
         "https://api.open-meteo.com/v1/forecast?latitude=10.0&longitude=20.0&hourly=temperature_2m,relativehumidity_2m,wind_speed_10m,et0_fao_evapotranspiration&start=2024-06-02T00:00:00Z&end=2024-06-02T23:59:59Z";
       Call_get_ndvi_data (JList sample_points) (JStr "2024-06-02");
       Call_getInfo (ndvi_query (JList sample_points) (JStr "2024-06-02"))].
Proof. vm_compute. split; [eexists|]; reflexivity. Qed.

(** ** The error messages are distinct *)

Lemma list_ascii_of_string_app a b :
  String.list_ascii_of_string (a +:+ b)
  = String.list_ascii_of_string a ++ String.list_ascii_of_string b.
Proof.
  induction a as [|c a IH]; [done|].
  change (String c a +:+ b) with (String c (a +:+ b)). simpl. by rewrite IH.
Qed.

Lemma string_app_inv_tail a b t : a +:+ t = b +:+ t → a = b.
Proof.
  intros H. apply (f_equal String.list_ascii_of_string) in H.
  rewrite !list_ascii_of_string_app in H. apply app_inv_tail in H.
  rewrite <- (String.string_of_list_ascii_of_string a), H.
  apply String.string_of_list_ascii_of_string.
Qed.

Lemma floats_message_inj i j : floats_message i = floats_message j → i = j.
Proof.
  unfold floats_message. intros H.
  apply (inj (String.app "Point ")) in H.
  apply string_app_inv_tail, (inj pretty) in H. lia.
Qed.

Lemma floats_message_ne_shape i j : floats_message i ≠ shape_message j.
Proof.
  unfold floats_message, shape_message. intros H.
  apply (inj (String.app "Point ")) in H.
  apply (f_equal String.list_ascii_of_string) in H.
  rewrite !list_ascii_of_string_app in H.
  apply (f_equal reverse) in H. rewrite !reverse_app in H.
  discriminate H.
Qed.

Lemma floats_message_ne_date i : floats_message i ≠ date_error.
Proof. discriminate. Qed.

Lemma shape_message_inj i j : shape_message i = shape_message j → i = j.
Proof.
  unfold shape_message. intros H.
  apply (inj (String.app "Point ")) in H.
  apply string_app_inv_tail, (inj pretty) in H. lia.
Qed.

Lemma shape_message_ne_date i : shape_message i ≠ date_error.
Proof. discriminate. Qed.

(** ** Validation *)

Section ValidationFacts.

Variable strptime_ymd : string → option string.

Lemma points_errors_cons i point points :
  points_errors i (point :: points)
  = point_errors i point ++ points_errors (S i) points.
Proof.
  unfold points_errors. simpl. rewrite Nat.add_0_r. f_equal. f_equal.
  apply imap_ext. intros j x _. simpl. f_equal. lia.
Qed.

Lemma check_points_run i points errs :
  check_points i points errs = (inr (), errs ++ points_errors i points).
Proof.
  revert i errs. induction points as [|p points IH]; intros i errs.
  - unfold points_errors. simpl. by rewrite app_nil_r.
  - assert (Hstep : ∀ (m : M (list string) ()) msgs,
               (∀ e, m e = (inr (), e ++ msgs)) →
               (m;; check_points (S i) points) errs
               = (inr (), errs ++ msgs ++ points_errors (S i) points)).
    { intros m msgs Hm. unfold mbind, M_bind. rewrite Hm, IH.
      by rewrite <- app_assoc. }
    rewrite points_errors_cons. unfold point_errors.
    change (check_points i (p :: points) errs) with
      ((match p with
        | JList [lon; lat] =>
            if isinstance_float lon && isinstance_float lat then mret ()
            else append_error ("Point " +:+ pretty (i + 1)
                               +:+ " must contain two floats (lon, lat).")
        | _ => append_error ("Point " +:+ pretty (i + 1)
                             +:+ " is not a list of two elements.")
        end;; check_points (S i) points) errs).
    apply Hstep. intros e.
    destruct p as [| | | | |[|lon [|lat [|? ?]]]|]; try done.
    all: simpl; try destruct (isinstance_float lon && isinstance_float lat);
      simpl; rewrite ?app_nil_r; done.
Qed.

Lemma validate_request_dict request body :
  request_json request = inr (JDict body) →
  validate_request strptime_ymd request
  = coordinates_errors (default JNone (body !! "coordinates"))
    ++ date_errors strptime_ymd (default JNone (body !! "date")).
Proof.
  intros Hbody. unfold validate_request, try_except. rewrite Hbody. simpl.
  set (coordinates := default JNone (body !! "coordinates")).
  set (date := default JNone (body !! "date")).
  unfold mbind, M_bind, lift. simpl.
  assert (Hdate : ∀ errs,
             try_except_of [ValueError; TypeError]
               (λ s, (strptime strptime_ymd date, s))
               (λ _, append_error
                       "Date must be a valid string in 'YYYY-MM-DD' format.")
               errs
             = (inr (), errs ++ date_errors strptime_ymd date)).
  { intros errs. unfold try_except_of, date_errors, strptime.
    destruct date; simpl; try done.
    destruct (strptime_ymd s); simpl; by rewrite ?app_nil_r. }
  unfold coordinates_errors.
  destruct coordinates as [| | | | |points|]; simpl; try by rewrite Hdate.
  destruct (decide (length points < 4)); simpl; [by rewrite Hdate|].
  rewrite check_points_run. simpl. by rewrite Hdate.
Qed.

Lemma validate_request_not_dict request :
  (∀ body, request_json request ≠ inr (JDict body)) →
  ∃ msg, validate_request strptime_ymd request = ["validate_request: " +:+ msg].
Proof.
  intros Hbody. unfold validate_request, try_except.
  destruct (request_json request) as [e|v] eqn:Hjson; simpl; [by eexists|].
  destruct v; simpl; try by eexists.
  by destruct (Hbody m).
Qed.

Lemma point_errors_nil i point : point_errors i point = [] ↔ float_pair point.
Proof.
  unfold point_errors, float_pair. split.
  - destruct point as [| | | | |[|lon [|lat [|? ?]]]|]; try done.
    destruct lon, lat; try done. eauto.
  - by intros (lon & lat & ->).
Qed.

Lemma points_errors_nil i points :
  points_errors i points = [] ↔ Forall float_pair points.
Proof.
  unfold points_errors. revert i.
  induction points as [|p points IH]; intros i; simpl.
  - split; [constructor|done].
  - rewrite Nat.add_0_r. rewrite app_nil, Forall_cons, point_errors_nil.
    assert (Hext : imap ((λ j, point_errors (i + j)) ∘ S) points
                   = imap (λ j, point_errors (S i + j)) points).
    { apply imap_ext. intros j x _. simpl. f_equal. lia. }
    rewrite Hext. by rewrite IH.
Qed.

Lemma date_errors_nil date :
  date_errors strptime_ymd date = [] ↔ ∃ s, date = JStr s ∧ strptime_ymd s = None.
Proof.
  unfold date_errors, strptime. split.
  - destruct date; try done. destruct (strptime_ymd s) eqn:Hs; [done|eauto].
  - by intros (s & -> & ->).
Qed.

Lemma coordinates_errors_nil coordinates :
  coordinates_errors coordinates = []
  ↔ ∃ points, coordinates = JList points ∧ 4 ≤ length points
              ∧ Forall float_pair points.
Proof.
  unfold coordinates_errors. split.
  - destruct coordinates as [| | | | |points|]; try done.
    destruct (decide (length points < 4)); [done|].
    rewrite points_errors_nil. intros Hpoints. exists points.
    split_and!; [done|lia|done].
  - intros (points & -> & Hlen & Hpoints).
    destruct (decide (length points < 4)); [lia|].
    by apply points_errors_nil.
Qed.

Lemma validate_request_nil request :
  validate_request strptime_ymd request = [] ↔ accepted strptime_ymd request.
Proof.
  unfold accepted. split.
  - intros Hnil.
    destruct (request_json request) as [e|v] eqn:Hjson.
    { destruct (validate_request_not_dict request) as (msg & Hmsg);
        [intros body; by rewrite Hjson|]. by rewrite Hmsg in Hnil. }
    assert (∃ body, v = JDict body) as [body ->].
    { destruct v; eauto;
        (destruct (validate_request_not_dict request) as (msg & Hmsg);
         [intros body; by rewrite Hjson | by rewrite Hmsg in Hnil]). }
    rewrite (validate_request_dict request body Hjson) in Hnil.
    apply app_nil in Hnil as [Hcoordinates Hdate].
    apply coordinates_errors_nil in Hcoordinates
      as (points & Hpoints & Hlen & Hfloats).
    apply date_errors_nil in Hdate as (d & Hd & Hparse).
    exists body, points, d.
    destruct (body !! "coordinates") as [?|]; [|done].
    destruct (body !! "date") as [?|]; [|done].
    simpl in *. by subst.
  - intros (body & points & d & Hjson & Hpoints & Hlen & Hfloats & Hd & Hparse).
    rewrite (validate_request_dict request body Hjson), Hpoints, Hd. simpl.
    apply app_nil. split.
    + apply (coordinates_errors_nil (JList points)). eauto.
    + apply (date_errors_nil (JStr d)). eauto.
Qed.

Lemma elem_of_points_errors msg points : ∀ i,
  msg ∈ points_errors i points
  ↔ ∃ j point, points !! j = Some point ∧ msg ∈ point_errors (i + j) point.
Proof.
  induction points as [|p points IH]; intros i.
  - split; [by intros ?%elem_of_nil|by intros (? & ? & ? & _)].
  - rewrite points_errors_cons, elem_of_app, IH. split.
    + intros [Hp|(j & q & Hq & Hmsg)].
      * exists 0, p. by rewrite Nat.add_0_r.
      * exists (S j), q. by rewrite Nat.add_succ_r.
    + intros ([|j] & q & Hq & Hmsg); simplify_eq/=.
      * left. by rewrite Nat.add_0_r in Hmsg.
      * right. exists j, q. by rewrite Nat.add_succ_r in Hmsg.
Qed.

(** What the loop appends for a point, by the shape of the point. *)
Lemma point_errors_pair i a b :
  point_errors i (JList [a; b])
  = if isinstance_float a && isinstance_float b then []
    else [floats_message i].
Proof.
  unfold point_errors. simpl.
  by destruct (isinstance_float a && isinstance_float b).
Qed.

Lemma point_errors_incl i point msg :
  msg ∈ point_errors i point → msg = floats_message i ∨ msg = shape_message i.
Proof.
  unfold point_errors.
  destruct point as [| | | | |[|a [|b [|? ?]]]|]; simpl;
    try (intros ?%list_elem_of_singleton; by right).
  destruct (isinstance_float a && isinstance_float b); simpl.
  - by intros ?%elem_of_nil.
  - intros ?%list_elem_of_singleton. by left.
Qed.

(** The messages about the point at index [i] come from that point. *)
Lemma elem_of_validate_request request body points i point :
  request_json request = inr (JDict body) →
  body !! "coordinates" = Some (JList points) →
  4 ≤ length points →
  points !! i = Some point →
  (floats_message i ∈ validate_request strptime_ymd request
   ↔ floats_message i ∈ point_errors i point)
  ∧ (shape_message i ∈ validate_request strptime_ymd request
     ↔ shape_message i ∈ point_errors i point).
Proof.
  intros Hjson Hpoints Hlen Hpoint.
  rewrite (validate_request_dict request body Hjson), Hpoints.
  unfold coordinates_errors. simpl.
  destruct (decide (length points < 4)); [lia|].
  rewrite !elem_of_app, !elem_of_points_errors. simpl.
  assert (∀ msg, msg ≠ date_error →
            msg ∈ date_errors strptime_ymd (default JNone (body !! "date"))
            → False) as Hdate.
  { intros msg Hmsg. unfold date_errors.
    destruct (strptime _ _); [|by intros ?%elem_of_nil].
    by intros ?%list_elem_of_singleton. }
  split; split.
  - intros [(j & q & Hq & Hmsg)|Hmsg].
    + destruct (point_errors_incl _ _ _ Hmsg) as [Heq|Heq].
      * apply floats_message_inj in Heq as <-. by simplify_eq.
      * by apply floats_message_ne_shape in Heq.
    + by destruct (Hdate _ (floats_message_ne_date i) Hmsg).
  - intros Hmsg. left. eauto.
  - intros [(j & q & Hq & Hmsg)|Hmsg].
    + destruct (point_errors_incl _ _ _ Hmsg) as [Heq|Heq].
      * symmetry in Heq. by apply floats_message_ne_shape in Heq.
      * apply shape_message_inj in Heq as <-. by simplify_eq.
    + by destruct (Hdate _ (shape_message_ne_date i) Hmsg).
  - intros Hmsg. left. eauto.
Qed.

(** C8.  For a point that is a list of two values, in a list of at least 4
    points, the validator reports the error about floats for that point
    exactly when the two values are not both floats, and never the error
    about its shape: the integers of [[1, 2]] are reported as
    "Point i must contain two floats (lon, lat)." (with i counted from 1),
    and [[1.0, 2.0]] leaves no error about the point. *)
Theorem validate_request_point_floats request body points i a b :
  request_json request = inr (JDict body) →
  body !! "coordinates" = Some (JList points) →
  4 ≤ length points →
  points !! i = Some (JList [a; b]) →
  let errors_ := validate_request strptime_ymd request in
  let about_floats :=
    "Point " +:+ pretty (i + 1) +:+ " must contain two floats (lon, lat)." in
  let about_shape :=
    "Point " +:+ pretty (i + 1) +:+ " is not a list of two elements." in
  (about_floats ∈ errors_ ↔ ¬ (isinstance_float a ∧ isinstance_float b))
  ∧ (about_shape ∉ errors_)
  ∧ (a = JInt 1 → b = JInt 2 → about_floats ∈ errors_)
  ∧ (a = JFloat 1 → b = JFloat 2 → about_floats ∉ errors_).
Proof.
  intros Hjson Hpoints Hlen Hpoint errors_ about_floats about_shape.
  subst errors_ about_floats about_shape.
  destruct (elem_of_validate_request request body points i _
              Hjson Hpoints Hlen Hpoint) as [Hfloats Hshape].
  fold (floats_message i) (shape_message i).
  rewrite Hfloats, Hshape, point_errors_pair.
  assert (shape_message i ∉ [floats_message i]) as Hne.
  { intros Hin%list_elem_of_singleton. symmetry in Hin.
    by apply floats_message_ne_shape in Hin. }
  destruct (isinstance_float a) eqn:Ha, (isinstance_float b) eqn:Hb; simpl;
    (split_and!;
     [ | first [apply not_elem_of_nil | exact Hne]
       | intros -> ->; first [done | apply list_elem_of_singleton; done]
       | intros -> ->; first [done | apply not_elem_of_nil] ]).
  - split; [by intros ?%elem_of_nil|by intros []].
  - split; [by intros _ [_ []]|intros _; by apply list_elem_of_singleton].
  - split; [by intros _ [[] _]|intros _; by apply list_elem_of_singleton].
  - split; [by intros _ [[] _]|intros _; by apply list_elem_of_singleton].
Qed.

End ValidationFacts.

(** Reduce the binds of both monads, and nothing else. *)
Tactic Notation "run_pure" :=
  cbv [mbind M_bind result_bind mret M_ret result_ret lift raise gets fst snd
       reducer_result data errors ee_initialized calls].
Tactic Notation "run_pure" "in" hyp(H) :=
  cbv [mbind M_bind result_bind mret M_ret result_ret lift raise gets fst snd
       reducer_result data errors ee_initialized calls] in H.

(** ** Sums and means of numbers *)

Section SumFacts.

Variable float_sum : Z → list number → result pyfloat.

Lemma numbers_prefix_all items :
  (numbers_prefix items).2 = [] → Forall (λ x, is_Some (number_value x)) items.
Proof.
  induction items as [|x items IH]; [constructor|]. simpl.
  destruct (number_value x) eqn:Hx; [|done]. simpl. intros Hrest.
  constructor; [by rewrite Hx|by apply IH].
Qed.

(** What [sum] returns is an integer or a float, and then every item is a
    number. *)
Lemma sum_from_inv items : ∀ total v,
  sum_from float_sum total items = inr v →
  is_int_or_float v ∧ Forall (λ x, is_Some (number_value x)) items.
Proof.
  induction items as [|x items IH]; intros total v Hsum.
  - simpl in Hsum. simplify_eq. split; [left; eauto|constructor].
  - destruct x as [|b|z|f| | |]; try done.
    + destruct (IH _ _ Hsum). split; [done|]. constructor; [by eexists|done].
    + destruct (IH _ _ Hsum). split; [done|]. constructor; [by eexists|done].
    + cbn [sum_from] in Hsum.
      destruct (float_sum total _) as [e|total']; [done|].
      cbv [mbind result_bind] in Hsum.
      destruct (numbers_prefix (JFloat f :: items)).2 as [|y rest] eqn:Hrest;
        [|done].
      simplify_eq. split; [right; eauto|]. by apply numbers_prefix_all.
Qed.

Lemma py_sum_inv x v : py_sum float_sum x = inr v → is_int_or_float v.
Proof.
  unfold py_sum. destruct (py_iter x) as [e|items]; [done|].
  intros Hsum. by eapply sum_from_inv.
Qed.

Lemma py_sum_list_inv items v :
  py_sum float_sum (JList items) = inr v →
  Forall (λ x, is_Some (number_value x)) items.
Proof. intros Hsum. by eapply (sum_from_inv items 0). Qed.

Lemma mean_of_list_inv items v :
  mean_of float_sum (JList items) = inr v →
  Forall (λ x, is_Some (number_value x)) items.
Proof.
  unfold mean_of.
  destruct (py_sum float_sum (JList items)) as [e|total] eqn:Hsum; [done|].
  intros _. by eapply py_sum_list_inv.
Qed.




Lemma mean_of_inv series v :
  mean_of float_sum series = inr v →
  ∃ n q, py_len series = inr n ∧ n ≠ 0 ∧ v = JFloat q.
Proof.
  unfold mean_of. intros Hmean.
  destruct (py_sum float_sum series) as [e|total]; [done|].
  destruct (py_len series) as [e|n]; [done|].
  cbv [mbind result_bind] in Hmean. exists n.
  destruct total; simpl in Hmean; try done;
    destruct (decide (n = 0)); try done;
    try (destruct (int_truediv _ _); simplify_eq; eauto);
    simplify_eq; eauto.
Qed.

Lemma mean_of_empty :
  mean_of float_sum (JList [])
  = inl (Exn ZeroDivisionError "division by zero").
Proof. reflexivity. Qed.

End SumFacts.

(** A slice of a list is empty only if the list is. *)
Lemma py_slice24_len x t n :
  py_slice24 x = inr t → py_len t = inr n → n ≠ 0 → x ≠ JList [] ∧ x ≠ JStr EmptyString.
Proof.
  intros Hslice Hlen Hn. split; intros ->; simplify_eq/=.
Qed.

(** ** The weather reducer *)

Section WeatherFacts.

Variable py_format : json → string.
Variable py_repr : string → string.
Variable float_sum : Z → list number → result pyfloat.
Variable W : world.

Lemma get_open_meteo_weather_run lat lon date s :
  get_open_meteo_weather py_format py_repr float_sum W lat lon date s
  = (inr (reducer_result "get_open_meteo_weather"
            (weather_outcome py_format py_repr float_sum W lat lon date)),
     State (ee_initialized s)
       (calls s ++ [Call_get_open_meteo_weather lat lon date;
                    Call_requests_get (open_meteo_url py_format lat lon date)])).
Proof.
  unfold get_open_meteo_weather, weather_outcome, weather_statistics,
    try_except, record_call, modify.
  run_pure. rewrite <- app_assoc. cbn [app].
  destruct (requests_get W _) as [e|response]; run_pure; [done|].
  case_bool_decide; run_pure; [done|].
  destruct (response_json response) as [e|body]; run_pure; [done|].
  destruct (py_getitem body "hourly") as [e|hourly]; run_pure; [done|].
  destruct (py_getitem hourly "temperature_2m") as [e|x]; run_pure; [done|].
  destruct (py_slice24 x) as [e|temperature]; run_pure; [done|]. clear x.
  destruct (py_getitem hourly "relativehumidity_2m") as [e|x]; run_pure; [done|].
  destruct (py_slice24 x) as [e|humidity]; run_pure; [done|]. clear x.
  destruct (py_getitem hourly "wind_speed_10m") as [e|x]; run_pure; [done|].
  destruct (py_slice24 x) as [e|wind_speed]; run_pure; [done|]. clear x.
  destruct (py_get_default hourly _ _) as [e|x]; run_pure; [done|].
  destruct (py_slice24 x) as [e|et0]; run_pure; [done|]. clear x.
  destruct (mean_of float_sum temperature) as [e|?]; run_pure; [done|].
  destruct (mean_of float_sum humidity) as [e|?]; run_pure; [done|].
  destruct (mean_of float_sum wind_speed) as [e|?]; run_pure; [done|].
  destruct (py_sum float_sum et0) as [e|?]; run_pure; done.
Qed.

(** When the statistics are computed, every step of the computation has
    returned. *)
Lemma weather_statistics_inv body d :
  weather_statistics float_sum body = inr d →
  ∃ hourly xt xh xw t h w e vt vh vw ve,
    py_getitem body "hourly" = inr hourly
    ∧ py_getitem hourly "temperature_2m" = inr xt ∧ py_slice24 xt = inr t
    ∧ py_getitem hourly "relativehumidity_2m" = inr xh ∧ py_slice24 xh = inr h
    ∧ py_getitem hourly "wind_speed_10m" = inr xw ∧ py_slice24 xw = inr w
    ∧ py_get_default hourly "et0_fao_evapotranspiration"
        (JList (replicate 24 (JInt 0))) ≫= py_slice24 = inr e
    ∧ mean_of float_sum t = inr vt ∧ mean_of float_sum h = inr vh
    ∧ mean_of float_sum w = inr vw
    ∧ py_sum float_sum e = inr ve
    ∧ d = {[ "mean_temperature_2m_C" := vt;
             "mean_humidity_2m_%" := vh;
             "mean_wind_speed_10m_m_s" := vw;
             "sum_et0_mm" := ve ]}.
Proof.
  unfold weather_statistics. intros Hd.
  destruct (py_getitem body "hourly") as [?|hourly] eqn:?; [done|].
  run_pure in Hd.
  destruct (py_getitem hourly "temperature_2m") as [?|xt] eqn:?; [done|].
  destruct (py_slice24 xt) as [?|t] eqn:?; [done|].
  destruct (py_getitem hourly "relativehumidity_2m") as [?|xh] eqn:?; [done|].
  destruct (py_slice24 xh) as [?|h] eqn:?; [done|].
  destruct (py_getitem hourly "wind_speed_10m") as [?|xw] eqn:?; [done|].
  destruct (py_slice24 xw) as [?|w] eqn:?; [done|].
  destruct (py_get_default hourly _ _) as [?|xe] eqn:?; [done|].
  destruct (py_slice24 xe) as [?|e] eqn:He; [done|].
  destruct (mean_of float_sum t) as [?|vt] eqn:?; [done|].
  destruct (mean_of float_sum h) as [?|vh] eqn:?; [done|].
  destruct (mean_of float_sum w) as [?|vw] eqn:?; [done|].
  destruct (py_sum float_sum e) as [?|ve] eqn:?; [done|].
  simplify_eq. exists hourly, xt, xh, xw, t, h, w, e, vt, vh, vw, ve.
  split_and!; try done.
  match goal with H : py_get_default _ _ _ = _ |- _ => by rewrite H end.
Qed.

Lemma weather_outcome_inv lat lon date d :
  weather_outcome py_format py_repr float_sum W lat lon date = inr d →
  ∃ response body,
    requests_get W (open_meteo_url py_format lat lon date) = inr response
    ∧ status_code response = 200%Z
    ∧ response_json response = inr body
    ∧ weather_statistics float_sum body = inr d.
Proof.
  unfold weather_outcome. intros Hd.
  destruct (requests_get W _) as [?|response] eqn:?; [done|].
  run_pure in Hd. case_bool_decide as Hstatus; [done|].
  destruct (response_json response) as [?|body] eqn:?; [done|].
  exists response, body. split_and!; done.
Qed.

(** The statistics of a body that holds the three averaged series, in terms
    of the evapotranspiration series read or substituted. *)
Lemma weather_statistics_series body hourly ts hs ws es :
  body !! "hourly" = Some (JDict hourly) →
  hourly !! "temperature_2m" = Some (JList ts) →
  hourly !! "relativehumidity_2m" = Some (JList hs) →
  hourly !! "wind_speed_10m" = Some (JList ws) →
  default (JList (replicate 24 (JInt 0)))
    (hourly !! "et0_fao_evapotranspiration") = JList es →
  weather_statistics float_sum (JDict body)
  = (mean_temp ← mean_of float_sum (JList (take 24 ts));
     mean_humidity ← mean_of float_sum (JList (take 24 hs));
     mean_wind_speed ← mean_of float_sum (JList (take 24 ws));
     sum_et0 ← py_sum float_sum (JList (take 24 es));
     mret ({[ "mean_temperature_2m_C" := mean_temp;
              "mean_humidity_2m_%" := mean_humidity;
              "mean_wind_speed_10m_m_s" := mean_wind_speed;
              "sum_et0_mm" := sum_et0 ]} : gmap string json)).
Proof.
  intros Hhourly Ht Hh Hw He.
  unfold weather_statistics, py_getitem, py_get_default. rewrite Hhourly.
  run_pure. rewrite Ht, Hh, Hw, He. reflexivity.
Qed.

Lemma weather_reducer_of_statistics lat lon date s response body :
  requests_get W (open_meteo_url py_format lat lon date) = inr response →
  status_code response = 200%Z →
  response_json response = inr body →
  (get_open_meteo_weather py_format py_repr float_sum W lat lon date s).1
  = inr (reducer_result "get_open_meteo_weather"
           (weather_statistics float_sum body)).
Proof.
  intros Hget Hstatus Hjson. rewrite get_open_meteo_weather_run.
  unfold weather_outcome. rewrite Hget. run_pure. rewrite Hstatus, Hjson.
  by rewrite bool_decide_false by (intros ?; done).
Qed.


(** The reducer returns, and what it returns is either the statistics with
    no error or no data with one error carrying its name. *)
Lemma weather_reducer_result lat lon date s :
  ∃ r, (get_open_meteo_weather py_format py_repr float_sum W lat lon date s).1 = inr r
       ∧ ((∃ d, weather_outcome py_format py_repr float_sum W lat lon date = inr d
                ∧ r = FetchResult d [])
          ∨ (∃ e, weather_outcome py_format py_repr float_sum W lat lon date = inl e
                  ∧ r = FetchResult ∅
                          ["get_open_meteo_weather: " +:+ exn_str e])).
Proof.
  rewrite get_open_meteo_weather_run. eexists. split; [done|].
  destruct (weather_outcome _ _ _ _ _ _) as [e|d]; [right|left]; eauto.
Qed.

Lemma weather_reducer_error lat lon date s e :
  weather_outcome py_format py_repr float_sum W lat lon date = inl e →
  (get_open_meteo_weather py_format py_repr float_sum W lat lon date s).1
  = inr (FetchResult ∅ ["get_open_meteo_weather: " +:+ exn_str e]).
Proof. intros He. rewrite get_open_meteo_weather_run. by rewrite He. Qed.

(** C6.  A response whose status is not 200, an exception of the transport
    or of the parsing of the body, and a missing required series each make
    the reducer return no data and exactly one error, which starts with the
    name of the operation; the reducer returns nothing else than this or
    the statistics without error. *)
Theorem weather_reducer_failure lat lon date s :
  let url := open_meteo_url py_format lat lon date in
  let returned := (get_open_meteo_weather py_format py_repr float_sum W lat lon date s).1 in
  let failure msg := inr (FetchResult ∅ ["get_open_meteo_weather: " +:+ msg]) in
  (∀ response,
      requests_get W url = inr response → status_code response ≠ 200%Z →
      returned = failure (exn_str (fetch_failed py_repr (text response))))
  ∧ (∀ e, requests_get W url = inl e → returned = failure (exn_str e))
  ∧ (∀ response e,
        requests_get W url = inr response → status_code response = 200%Z →
        response_json response = inl e → returned = failure (exn_str e))
  ∧ (∀ response body hourly key,
        requests_get W url = inr response → status_code response = 200%Z →
        response_json response = inr (JDict body) →
        body !! "hourly" = Some (JDict hourly) →
        key ∈ ["temperature_2m"; "relativehumidity_2m"; "wind_speed_10m"] →
        hourly !! key = None →
        ∃ msg, returned = failure msg)
  ∧ (∃ r, returned = inr r
          ∧ (errors r = []
             ∨ data r = ∅
               ∧ ∃ msg, errors r = ["get_open_meteo_weather: " +:+ msg])).
Proof.
  intros url returned failure. subst returned failure url. split_and!.
  - intros response Hget Hstatus. apply weather_reducer_error.
    unfold weather_outcome. rewrite Hget. run_pure.
    by rewrite bool_decide_true.
  - intros e Hget. apply weather_reducer_error.
    unfold weather_outcome. by rewrite Hget.
  - intros response e Hget Hstatus Hjson. apply weather_reducer_error.
    unfold weather_outcome. rewrite Hget. run_pure. rewrite Hjson.
    by rewrite bool_decide_false by (intros ?; done).
  - intros response body hourly key Hget Hstatus Hjson Hhourly Hkey Hnone.
    destruct (weather_reducer_result lat lon date s)
      as (r & -> & [(d & Hd & ->)|(e & He & ->)]); [|by eexists].
    exfalso.
    apply weather_outcome_inv in Hd
      as (response' & body' & Hget' & _ & Hjson' & Hstat).
    rewrite Hget in Hget'. injection Hget' as <-.
    rewrite Hjson in Hjson'. injection Hjson' as <-.
    apply weather_statistics_inv in Hstat
      as (hourly' & xt & xh & xw & ? & ? & ? & ? & ? & ? & ? & ?
          & Hh & Hxt & _ & Hxh & _ & Hxw & _).
    simpl in Hh. rewrite Hhourly in Hh. simplify_eq. simpl in *.
    set_unfold in Hkey. destruct Hkey as [->|[->|[->|[]]]];
      rewrite Hnone in *; done.
  - destruct (weather_reducer_result lat lon date s)
      as (r & -> & [(d & Hd & ->)|(e & He & ->)]); eexists; split; eauto.
Qed.

(** C10.  The reducer never raises.  From a response with success status
    whose three required series are present and of which one is an empty
    list, it returns no data and exactly one error carrying its name; when
    the temperature series is the empty one and the others are lists, the
    error is that of the division by zero.  Whenever the reducer returns
    without error, each of the three truncated series it has averaged has a
    length that is not zero. *)
Theorem weather_reducer_empty_series lat lon date s :
  let url := open_meteo_url py_format lat lon date in
  let returned := (get_open_meteo_weather py_format py_repr float_sum W lat lon date s).1 in
  let failure msg := inr (FetchResult ∅ ["get_open_meteo_weather: " +:+ msg]) in
  (∃ r, returned = inr r)
  ∧ (∀ response body hourly xt xh xw,
        requests_get W url = inr response → status_code response = 200%Z →
        response_json response = inr (JDict body) →
        body !! "hourly" = Some (JDict hourly) →
        hourly !! "temperature_2m" = Some xt →
        hourly !! "relativehumidity_2m" = Some xh →
        hourly !! "wind_speed_10m" = Some xw →
        xt = JList [] ∨ xh = JList [] ∨ xw = JList [] →
        (∃ msg, returned = failure msg)
        ∧ (xt = JList [] → (∃ hs, xh = JList hs) → (∃ ws, xw = JList ws) →
           (hourly !! "et0_fao_evapotranspiration" = None
            ∨ ∃ es, hourly !! "et0_fao_evapotranspiration" = Some (JList es)) →
           returned = failure "division by zero"))
  ∧ (∀ r, returned = inr r → errors r = [] →
        ∃ response body hourly t h w nt nh nw,
          requests_get W url = inr response
          ∧ response_json response = inr body
          ∧ py_getitem body "hourly" = inr hourly
          ∧ py_getitem hourly "temperature_2m" ≫= py_slice24 = inr t
          ∧ py_getitem hourly "relativehumidity_2m" ≫= py_slice24 = inr h
          ∧ py_getitem hourly "wind_speed_10m" ≫= py_slice24 = inr w
          ∧ py_len t = inr nt ∧ py_len h = inr nh ∧ py_len w = inr nw
          ∧ nt ≠ 0 ∧ nh ≠ 0 ∧ nw ≠ 0).
Proof.
  intros url returned failure. subst returned failure url. split_and!.
  - destruct (weather_reducer_result lat lon date s) as (r & Hr & _). eauto.
  - intros response body hourly xt xh xw Hget Hstatus Hjson Hhourly Ht Hh Hw
      Hempty.
    split.
    + destruct (weather_reducer_result lat lon date s)
        as (r & -> & [(d & Hd & ->)|(e & He & ->)]); [|by eexists].
      exfalso.
      apply weather_outcome_inv in Hd
        as (response' & body' & Hget' & _ & Hjson' & Hstat).
      rewrite Hget in Hget'. injection Hget' as <-.
      rewrite Hjson in Hjson'. injection Hjson' as <-.
      apply weather_statistics_inv in Hstat
        as (hourly' & xt' & xh' & xw' & t & h & w & ? & vt & vh & vw & ?
            & Hh' & Hxt & Hst & Hxh & Hsh & Hxw & Hsw & _
            & Hmt & Hmh & Hmw & _).
      simpl in Hh'. rewrite Hhourly in Hh'. simplify_eq. simpl in *.
      rewrite Ht in Hxt. rewrite Hh in Hxh. rewrite Hw in Hxw. simplify_eq.
      apply mean_of_inv in Hmt as (nt & ? & Hnt & ? & _).
      apply mean_of_inv in Hmh as (nh & ? & Hnh & ? & _).
      apply mean_of_inv in Hmw as (nw & ? & Hnw & ? & _).
      destruct (py_slice24_len _ _ _ Hst Hnt) as [? _]; [done|].
      destruct (py_slice24_len _ _ _ Hsh Hnh) as [? _]; [done|].
      destruct (py_slice24_len _ _ _ Hsw Hnw) as [? _]; [done|].
      by destruct Hempty as [?|[?|?]].
    + intros -> (hs & ->) (ws & ->) He.
      apply (weather_reducer_error _ _ _ _
               (Exn ZeroDivisionError "division by zero")).
      unfold weather_outcome. rewrite Hget. run_pure.
      rewrite Hstatus, Hjson. rewrite bool_decide_false by (intros ?; done).
      unfold weather_statistics, py_getitem, py_get_default.
      rewrite Hhourly. run_pure. rewrite Ht, Hh, Hw.
      by destruct He as [->|(es & ->)].
  - intros r Hr Herrors.
    destruct (weather_reducer_result lat lon date s)
      as (r' & Hr' & [(d & Hd & ->)|(e & He & ->)]);
      rewrite Hr in Hr'; simplify_eq; try done.
    apply weather_outcome_inv in Hd
      as (response & body & Hget & _ & Hjson & Hstat).
    apply weather_statistics_inv in Hstat
      as (hourly & xt & xh & xw & t & h & w & ? & vt & vh & vw & ?
          & Hh & Hxt & Hst & Hxh & Hsh & Hxw & Hsw & _
          & Hmt & Hmh & Hmw & _).
    apply mean_of_inv in Hmt as (nt & ? & Hnt & ? & _).
    apply mean_of_inv in Hmh as (nh & ? & Hnh & ? & _).
    apply mean_of_inv in Hmw as (nw & ? & Hnw & ? & _).
    exists response, body, hourly, t, h, w, nt, nh, nw.
    rewrite Hxt, Hxh, Hxw. split_and!; done.
Qed.

End WeatherFacts.

Section WeatherSubstitution.

Variable py_format : json → string.
Variable py_repr : string → string.
Variable float_sum : Z → list number → result pyfloat.

(** C5, amended.  From a response with success status whose hourly mapping
    lacks the evapotranspiration series and holds the other three, for each
    of which [sum(series) / len(series)] of the first 24 entries returns,
    the reducer returns [sum_et0_mm] = 0 (the integer, the same number as
    0.0) together with the three means, and reports no error.  It uses a
    series of 24 zeros in the place of the missing one: whether the means
    return or not, it returns what it returns for the same hourly mapping
    with a series of 24 zeros added, of which 0 is the sum. *)
Theorem weather_reducer_substitutes_zeros
    W lat lon date s response body hourly ts hs ws vt vh vw :
  requests_get W (open_meteo_url py_format lat lon date) = inr response →
  status_code response = 200%Z →
  response_json response = inr (JDict body) →
  body !! "hourly" = Some (JDict hourly) →
  hourly !! "temperature_2m" = Some (JList ts) →
  hourly !! "relativehumidity_2m" = Some (JList hs) →
  hourly !! "wind_speed_10m" = Some (JList ws) →
  hourly !! "et0_fao_evapotranspiration" = None →
  mean_of float_sum (JList (take 24 ts)) = inr vt →
  mean_of float_sum (JList (take 24 hs)) = inr vh →
  mean_of float_sum (JList (take 24 ws)) = inr vw →
  let returned :=
    (get_open_meteo_weather py_format py_repr float_sum W lat lon date s).1 in
  let zeros := JList (replicate 24 (JInt 0)) in
  returned
  = inr (FetchResult {[ "mean_temperature_2m_C" := vt;
                        "mean_humidity_2m_%" := vh;
                        "mean_wind_speed_10m_m_s" := vw;
                        "sum_et0_mm" := JInt 0 ]} [])
  ∧ (∀ W' response' body',
        requests_get W' (open_meteo_url py_format lat lon date)
        = inr response' →
        status_code response' = 200%Z →
        response_json response' = inr (JDict body') →
        body' !! "hourly"
        = Some (JDict (<["et0_fao_evapotranspiration" := zeros]> hourly)) →
        (get_open_meteo_weather py_format py_repr float_sum W' lat lon date s).1
        = returned)
  ∧ py_sum float_sum zeros = inr (JInt 0)
  ∧ number_rational (JInt 0) = number_rational (JFloat 0).
Proof.
  intros Hget Hstatus Hjson Hhourly Ht Hh Hw He Hvt Hvh Hvw returned zeros.
  subst returned zeros.
  assert (default (JList (replicate 24 (JInt 0)))
            (hourly !! "et0_fao_evapotranspiration")
          = JList (replicate 24 (JInt 0))) as He' by by rewrite He.
  rewrite (weather_reducer_of_statistics _ _ _ _ _ _ _ _ _ _
             Hget Hstatus Hjson).
  rewrite (weather_statistics_series _ _ _ _ _ _ _ Hhourly Ht Hh Hw He').
  split_and!.
  - rewrite Hvt, Hvh, Hvw. reflexivity.
  - intros W' response' body' Hget' Hstatus' Hjson' Hhourly'.
    rewrite (weather_reducer_of_statistics _ _ _ _ _ _ _ _ _ _
               Hget' Hstatus' Hjson').
    rewrite (weather_statistics_series _ body' _ ts hs ws
               (replicate 24 (JInt 0)) Hhourly'); [done|..].
    + by rewrite lookup_insert_ne.
    + by rewrite lookup_insert_ne.
    + by rewrite lookup_insert_ne.
    + by rewrite lookup_insert_eq.
  - reflexivity.
  - reflexivity.
Qed.

End WeatherSubstitution.

(** ** The vegetation-index reducer *)

Section VegetationFacts.

Variable W : world.

Lemma get_ndvi_data_run coordinates date s :
  get_ndvi_data W coordinates date s
  = (inr (ndvi_result W (ee_initialized s) coordinates date),
     ndvi_final_state W s coordinates date).
Proof.
  unfold get_ndvi_data, ndvi_result, ndvi_outcome, ndvi_final_state,
    ndvi_provider_calls, reducer_error, with_local, try_except, global, local,
    record_call, modify, py_print.
  destruct s as [initialized cs]. run_pure.
  destruct initialized; cbn [negb orb fst snd].
  - rewrite <- app_assoc. cbn [app].
    destruct (ee_getInfo W _) as [e|v]; [done|].
    by destruct (print_raises W _).
  - destruct (ee_Initialize W) as [e|].
    + rewrite <- app_assoc. cbn [app].
      rewrite bool_decide_false by done. done.
    + rewrite <- !app_assoc. cbn [app].
      rewrite bool_decide_true by done.
      destruct (ee_getInfo W _) as [e|v]; [done|].
      by destruct (print_raises W _).
Qed.

(** What the reducer returns when the provider answers, and when it does
    not. *)
Lemma ndvi_result_answer initialized coordinates date v :
  ndvi_outcome W initialized coordinates date = inr v →
  data (ndvi_result W initialized coordinates date) = {[ "ndvi_mean" := v ]}
  ∧ (print_raises W [JStr "NDVI mean value:"; v] = None →
     ndvi_result W initialized coordinates date
     = FetchResult {[ "ndvi_mean" := v ]} [])
  ∧ (∀ e, print_raises W [JStr "NDVI mean value:"; v] = Some e →
          ndvi_result W initialized coordinates date
          = FetchResult {[ "ndvi_mean" := v ]}
              ["get_ndvi_data: " +:+ exn_str e]).
Proof.
  intros Hv. unfold ndvi_result. rewrite Hv. split_and!; [done|..].
  - by intros ->.
  - by intros e ->.
Qed.

Lemma ndvi_result_failure initialized coordinates date e :
  ndvi_outcome W initialized coordinates date = inl e →
  ndvi_result W initialized coordinates date
  = FetchResult ∅ ["get_ndvi_data: " +:+ exn_str e].
Proof. intros He. unfold ndvi_result. by rewrite He. Qed.

(** No error is reported only when the provider has answered and the value
    has been printed. *)
Lemma ndvi_result_no_error initialized coordinates date :
  errors (ndvi_result W initialized coordinates date) = [] →
  ∃ v, ndvi_outcome W initialized coordinates date = inr v
       ∧ ee_getInfo W (ndvi_query coordinates date) = inr v
       ∧ print_raises W [JStr "NDVI mean value:"; v] = None
       ∧ ndvi_result W initialized coordinates date
         = FetchResult {[ "ndvi_mean" := v ]} [].
Proof.
  unfold ndvi_result.
  destruct (ndvi_outcome W initialized coordinates date) as [e|v] eqn:Hv;
    [done|].
  destruct (print_raises W _) eqn:Hprint; [done|]. intros _.
  exists v. split_and!; try done.
  unfold ndvi_outcome in Hv.
  destruct (if initialized then _ else _) as [?|[]]; [done|]. exact Hv.
Qed.

(** With a session that is initialized or can be, the answer is that of
    [getInfo]. *)
Lemma ndvi_outcome_session initialized coordinates date :
  initialized = true ∨ ee_Initialize W = None →
  ndvi_outcome W initialized coordinates date
  = ee_getInfo W (ndvi_query coordinates date).
Proof.
  unfold ndvi_outcome. intros [-> | ->]; [done|]. by destruct initialized.
Qed.

End VegetationFacts.

(** ** The reference provider: the first scene of a sorted collection *)

Section ProviderFacts.

Context {scene : Type}.
Variable P : provider scene.
Variable key : scene → Q.

Lemma elem_of_insert_by x l y : y ∈ insert_by key x l ↔ y = x ∨ y ∈ l.
Proof.
  induction l as [|z l IH]; simpl.
  - rewrite list_elem_of_singleton, elem_of_nil. tauto.
  - destruct (Qle_bool (key x) (key z)).
    + by rewrite elem_of_cons.
    + rewrite !elem_of_cons, IH. tauto.
Qed.

Lemma elem_of_sort_by l y : y ∈ sort_by key l ↔ y ∈ l.
Proof.
  induction l as [|x l IH]; simpl; [done|].
  by rewrite elem_of_insert_by, elem_of_cons, IH.
Qed.

Lemma insert_by_head_least x l :
  head_least key l → head_least key (insert_by key x l).
Proof.
  unfold head_least. intros Hl h Hh y Hy. destruct l as [|z l]; simpl in *.
  - apply list_elem_of_singleton in Hy. simplify_eq. apply Qle_refl.
  - destruct (Qle_bool (key x) (key z)) eqn:Hxz; simpl in Hh; simplify_eq.
    + apply Qle_bool_iff in Hxz.
      apply elem_of_cons in Hy as [->|Hy]; [apply Qle_refl|].
      eapply Qle_trans; [exact Hxz|]. by apply Hl.
    + apply elem_of_cons in Hy as [->|Hy]; [apply Qle_refl|].
      apply elem_of_insert_by in Hy as [->|Hy].
      * apply Qlt_le_weak, Qnot_le_lt. intros Hle.
        apply Qle_bool_iff in Hle. congruence.
      * apply Hl; [done|]. by apply elem_of_cons; right.
Qed.

Lemma sort_by_head_least l : head_least key (sort_by key l).
Proof.
  induction l as [|x l IH]; simpl.
  - by intros h ?.
  - by apply insert_by_head_least.
Qed.

Lemma sort_by_head l x :
  head (sort_by key l) = Some x →
  x ∈ l ∧ ∀ y, y ∈ l → (key x <= key y)%Q.
Proof.
  intros Hx. split.
  - apply elem_of_sort_by. destruct (sort_by key l); simplify_eq/=.
    apply elem_of_cons. by left.
  - intros y Hy. apply (sort_by_head_least l x Hx). by apply elem_of_sort_by.
Qed.

Lemma sort_by_nil l : sort_by key l = [] ↔ l = [].
Proof.
  split; [|by intros ->].
  destruct l as [|x l]; [done|]. intros Hnil.
  assert (x ∈ sort_by key (x :: l)) as Hx
    by (apply elem_of_sort_by, elem_of_cons; by left).
  rewrite Hnil in Hx. by apply elem_of_nil in Hx.
Qed.

End ProviderFacts.

Section SelectionFacts.

Context {scene : Type}.
Variable P : provider scene.
Variable W : world.

Lemma query_image_scene coordinates date :
  image_scene P (query_image (ndvi_query coordinates date))
  = head (sort_by (λ x, scene_property P x "CLOUDY_PIXEL_PERCENTAGE")
            (matching_scenes P coordinates date)).
Proof. reflexivity. Qed.

Lemma elem_of_matching_scenes coordinates date x :
  x ∈ matching_scenes P coordinates date
  ↔ x ∈ catalog P "COPERNICUS/S2"
    ∧ intersects P x (Polygon coordinates)
    ∧ acquired_within P x (Date_advance (Date date) (-1) "day")
        (Date_advance (Date date) 1 "day").
Proof. unfold matching_scenes. rewrite !list_elem_of_filter. tauto. Qed.

(** What the reference provider answers to the query of the reducer. *)
Lemma provider_getInfo_query coordinates date :
  provider_getInfo P (ndvi_query coordinates date)
  = match head (sort_by (λ x, scene_property P x "CLOUDY_PIXEL_PERCENTAGE")
                  (matching_scenes P coordinates date)) with
    | None => inl no_scene
    | Some x =>
        match ndvi_query coordinates date with
        | Dictionary_get dictionary key => region_statistic P x dictionary key
        end
    end.
Proof. reflexivity. Qed.

(** C7.  With a session that is initialized or can be, the last call the
    vegetation reducer makes is the query that searches the Sentinel-2
    collection over the polygon in the window from the day before the date to
    the day after it, sorts by the cloud-cover property, takes the first
    scene and reduces its index over the polygon.  For a provider that
    evaluates queries as the design describes, the scene the index is computed
    from is a scene of the catalogue that matches the polygon and the window
    and has the least cloud cover of those that do, there is one as soon as
    some scene matches, and the reducer returns under [ndvi_mean] the
    statistic of that scene, without error when printing it returns.  When no
    scene matches, the reducer returns no data and exactly one error, which
    starts with its name. *)
Theorem vegetation_reducer_selects_least_cloudy coordinates date s :
  ee_getInfo W = provider_getInfo P →
  let window_start := Date_advance (Date date) (-1) "day" in
  let window_end := Date_advance (Date date) 1 "day" in
  let polygon := Polygon coordinates in
  let cloud x := scene_property P x "CLOUDY_PIXEL_PERCENTAGE" in
  let image :=
    first
      (sort
         (filterDate
            (filterBounds (ImageCollection "COPERNICUS/S2") polygon)
            window_start window_end)
         "CLOUDY_PIXEL_PERCENTAGE") in
  let dictionary :=
    reduceRegion
      (clip (rename (normalizedDifference image ["B8"; "B4"]) "NDVI") polygon)
      Reducer_mean polygon (JInt 10) (JFloat 1000000000) in
  let selected := image_scene P image in
  let usable := ee_initialized s = true ∨ ee_Initialize W = None in
  let run := get_ndvi_data W coordinates date s in
  (usable →
   last (calls run.2) = Some (Call_getInfo (Dictionary_get dictionary "NDVI")))
  ∧ (∀ x, selected = Some x →
          x ∈ catalog P "COPERNICUS/S2"
          ∧ intersects P x polygon
          ∧ acquired_within P x window_start window_end
          ∧ ∀ y, y ∈ catalog P "COPERNICUS/S2" → intersects P y polygon →
                 acquired_within P y window_start window_end →
                 (cloud x <= cloud y)%Q)
  ∧ (matching_scenes P coordinates date ≠ [] → is_Some selected)
  ∧ (∀ x v, usable → selected = Some x →
            region_statistic P x dictionary "NDVI" = inr v →
            ∃ r, run.1 = inr r
                 ∧ data r = {[ "ndvi_mean" := v ]}
                 ∧ (print_raises W [JStr "NDVI mean value:"; v] = None →
                    errors r = []))
  ∧ (matching_scenes P coordinates date = [] →
     ∃ msg, run.1 = inr (FetchResult ∅ ["get_ndvi_data: " +:+ msg])).
Proof.
  intros Hprovider window_start window_end polygon cloud image dictionary
    selected usable run.
  subst selected usable run.
  change (image_scene P image)
    with (image_scene P (query_image (ndvi_query coordinates date))).
  rewrite query_image_scene. rewrite get_ndvi_data_run. cbn [fst snd].
  pose proof (provider_getInfo_query coordinates date) as Hquery.
  rewrite <- Hprovider in Hquery.
  split_and!.
  - intros Husable. unfold ndvi_final_state, ndvi_provider_calls. cbn [calls].
    destruct Husable as [-> | Hinit].
    + by rewrite last_app.
    + rewrite Hinit. destruct (ee_initialized s); by rewrite last_app.
  - intros x Hx. apply sort_by_head in Hx as [Hin Hleast].
    apply elem_of_matching_scenes in Hin as (? & ? & ?).
    split_and!; try done.
    intros y ? ? ?. apply Hleast. by apply elem_of_matching_scenes.
  - intros Hsome.
    destruct (sort_by _ (matching_scenes P coordinates date)) as [|x l]
      eqn:Hsort; [|by eexists].
    by apply sort_by_nil in Hsort.
  - intros x v Husable Hx Hv. rewrite Hx in Hquery.
    change (ee_getInfo W (ndvi_query coordinates date)
            = region_statistic P x dictionary "NDVI") in Hquery.
    rewrite Hv in Hquery.
    rewrite <- (ndvi_outcome_session W _ _ _ Husable) in Hquery.
    destruct (ndvi_result_answer W _ _ _ _ Hquery) as (Hdata & Hprint & _).
    eexists. split_and!; [done|done|]. intros Hreturns.
    by rewrite (Hprint Hreturns).
  - intros Hnone. rewrite Hnone in Hquery. cbn [sort_by foldr head] in Hquery.
    assert (ndvi_outcome W (ee_initialized s) coordinates date = inl no_scene
            ∨ ∃ e, ndvi_outcome W (ee_initialized s) coordinates date = inl e)
      as Houtcome.
    { unfold ndvi_outcome. rewrite Hquery.
      destruct (ee_initialized s); [by left|].
      destruct (ee_Initialize W); [right|left]; eauto. }
    destruct Houtcome as [He|(e & He)];
      rewrite (ndvi_result_failure W _ _ _ _ He); by eexists.
Qed.

End SelectionFacts.

(** ** The handler *)

Section PipelineFacts.

Variable py_format : json → string.
Variable py_repr : string → string.
Variable float_sum : Z → list number → result pyfloat.
Variable jsonify_raises : json → option exn.
Variable strptime_ymd : string → option string.
Variable W : world.

Lemma get_data_invalid request s :
  validate_request strptime_ymd request ≠ [] →
  get_data py_format py_repr float_sum jsonify_raises strptime_ymd W request s
  = (inr (errors_body (validate_request strptime_ymd request), 400%Z), s).
Proof.
  intros Herrors. unfold get_data, try_except.
  by rewrite bool_decide_true.
Qed.

(** The handler on a request that passes validation, in terms of what the two
    reducers return and of the outcome of the prints and of [jsonify]. *)
Lemma get_data_valid request body c00 c01 rest date s :
  request_json request = inr (JDict body) →
  body !! "coordinates" = Some (JList (JList [c00; c01] :: rest)) →
  body !! "date" = Some date →
  validate_request strptime_ymd request = [] →
  let coordinates := JList (JList [c00; c01] :: rest) in
  let w := reducer_result "get_open_meteo_weather"
             (weather_outcome py_format py_repr float_sum W c00 c01 date) in
  let s1 := State (ee_initialized s)
              (calls s ++ [Call_get_open_meteo_weather c00 c01 date;
                           Call_requests_get
                             (open_meteo_url py_format c00 c01 date)]) in
  let n := ndvi_result W (ee_initialized s) coordinates date in
  let s2 := ndvi_final_state W s1 coordinates date in
  get_data py_format py_repr float_sum jsonify_raises strptime_ymd W request s
  = if bool_decide (errors w ≠ [])
    then (inr (errors_body (errors w), 400%Z), s1)
    else if bool_decide (errors n ≠ [])
         then (inr (errors_body (errors n), 400%Z), s2)
         else (inr (merge_response
                      (merge_outcome jsonify_raises W n (data n ∪ data w))),
               s2).
Proof.
  intros Hjson Hcoordinates Hdate Hvalid. cbv zeta.
  destruct s as [initialized cs].
  unfold get_data, try_except. rewrite Hvalid.
  rewrite bool_decide_false by (intros ?; done).
  rewrite Hjson. run_pure. unfold py_getitem.
  rewrite Hcoordinates. run_pure. rewrite Hdate. run_pure.
  cbn [py_getitem_int lookup list_lookup].
  rewrite get_open_meteo_weather_run.
  destruct (weather_outcome _ _ _ _ _ _ _) as [e|dw];
    cbn [reducer_result errors].
  { by rewrite bool_decide_true. }
  rewrite bool_decide_false by (intros ?; done).
  rewrite get_ndvi_data_run. cbn [ee_initialized calls].
  set (n := ndvi_result W initialized _ date).
  change (let (_, errors0) := n in errors0) with (errors n).
  change (let (data0, _) := n in data0) with (data n).
  destruct (bool_decide (errors n ≠ [])); [done|].
  unfold merge_outcome, merge_response, py_update.
  rewrite (right_id_L ∅ (∪)). fold (success_body (data n ∪ dw)).
  destruct (py_print W [fetch_result_json n]) as [e|[]]; [done|].
  run_pure. change (let (data0, _) := n in data0) with (data n).
  destruct (py_print W [success_body (data n ∪ dw)]) as [e|[]]; [done|].
  by destruct (jsonify jsonify_raises _).
Qed.

(** The answers of the handler once both reducers have reported no error. *)
Lemma merge_response_cases ndvi_data merged :
  let response :=
    merge_response (merge_outcome jsonify_raises W ndvi_data merged) in
  (print_raises W [fetch_result_json ndvi_data] = None →
   print_raises W [success_body merged] = None →
   jsonify_raises (success_body merged) = None →
   response = (success_body merged, 200%Z))
  ∧ (∀ e, print_raises W [fetch_result_json ndvi_data] = Some e →
          response = (error_body (exn_str e), 400%Z))
  ∧ (∀ e, print_raises W [fetch_result_json ndvi_data] = None →
          print_raises W [success_body merged] = Some e →
          response = (error_body (exn_str e), 400%Z))
  ∧ (∀ e, print_raises W [fetch_result_json ndvi_data] = None →
          print_raises W [success_body merged] = None →
          jsonify_raises (success_body merged) = Some e →
          response = (error_body (exn_str e), 400%Z))
  ∧ (response = (success_body merged, 200%Z)
     ∨ ∃ msg, response = (error_body msg, 400%Z)).
Proof.
  cbv zeta. unfold merge_response, merge_outcome, py_print, jsonify.
  destruct (print_raises W [fetch_result_json ndvi_data]) as [e1|];
    [split_and!; try done; [by intros e [= ->]|right; by eexists]|].
  run_pure.
  destruct (print_raises W [success_body merged]) as [e2|];
    [split_and!; try done; [by intros e _ [= ->]|right; by eexists]|].
  destruct (jsonify_raises (success_body merged)) as [e3|];
    [split_and!; try done; [by intros e _ _ [= ->]|right; by eexists]|].
  split_and!; try done. by left.
Qed.

Lemma weather_data_dom c00 c01 date s weather_data s1 :
  get_open_meteo_weather py_format py_repr float_sum W c00 c01 date s
  = (inr weather_data, s1) →
  errors weather_data = [] →
  dom (data weather_data)
  = ({[ "mean_temperature_2m_C"; "mean_humidity_2m_%";
        "mean_wind_speed_10m_m_s"; "sum_et0_mm" ]} : gset string).
Proof.
  rewrite get_open_meteo_weather_run. intros [= <- _].
  destruct (weather_outcome _ _ _ _ _ _) as [e|d] eqn:Hd; [done|]. intros _.
  apply weather_outcome_inv in Hd as (? & ? & _ & _ & _ & Hd).
  apply weather_statistics_inv in Hd
    as (? & ? & ? & ? & ? & ? & ? & ? & ? & ? & ? & ? & Hd).
  destruct Hd as (_ & _ & _ & _ & _ & _ & _ & _ & _ & _ & _ & _ & ->).
  cbn [reducer_result data]. rewrite !dom_insert_L, dom_singleton_L.
  set_solver.
Qed.

Lemma ndvi_data_dom coordinates date s ndvi_data s2 :
  get_ndvi_data W coordinates date s = (inr ndvi_data, s2) →
  errors ndvi_data = [] →
  dom (data ndvi_data) = ({[ "ndvi_mean" ]} : gset string).
Proof.
  rewrite get_ndvi_data_run. intros [= <- _] Herrors.
  apply ndvi_result_no_error in Herrors as (v & _ & _ & _ & ->).
  apply dom_singleton_L.
Qed.


(** C3.  [validate_request] returns the empty list exactly for the accepted
    requests.  In particular, for a body that is a mapping it returns errors
    when [coordinates] is not a list of at least 4 points, when some point is
    not a list of two floats, and when [date] does not parse; and whenever it
    returns errors the handler leaves the state as it found it: it makes no
    call. *)
Theorem validate_request_accepts_exactly request :
  (validate_request strptime_ymd request = [] ↔ accepted strptime_ymd request)
  ∧ (∀ body,
        request_json request = inr (JDict body) →
        (¬ ∃ points, body !! "coordinates" = Some (JList points)
                     ∧ 4 ≤ length points)
        ∨ (∃ points point, body !! "coordinates" = Some (JList points)
                           ∧ point ∈ points ∧ ¬ float_pair point)
        ∨ (¬ ∃ date, body !! "date" = Some (JStr date)
                     ∧ strptime_ymd date = None) →
        validate_request strptime_ymd request ≠ [])
  ∧ (validate_request strptime_ymd request ≠ [] →
     ∀ s, (get_data py_format py_repr float_sum jsonify_raises strptime_ymd W request s).2 = s).
Proof.
  split_and!.
  - apply validate_request_nil.
  - intros body Hjson Hbad Hnil.
    apply validate_request_nil in Hnil
      as (body' & points & d & Hjson' & Hpoints & Hlen & Hfloats & Hd & Hparse).
    rewrite Hjson in Hjson'. injection Hjson' as <-.
    destruct Hbad as [Hbad|[(points' & point & Hpoints' & Hin & Hbad)|Hbad]].
    + apply Hbad. eauto.
    + rewrite Hpoints in Hpoints'. injection Hpoints' as <-.
      apply Hbad. by eapply Forall_forall in Hfloats.
    + apply Hbad. eauto.
  - intros Herrors s. by rewrite get_data_invalid.
Qed.

(** C4.  On a request that passes validation the handler passes the two
    values of the first point in the order in which they stand in the point:
    the first value, which [validate_request] takes for the longitude, is the
    argument [lat] of the weather reducer, and the second its argument [lon];
    they reach the provider in the fields [latitude] and [longitude] of the
    address, in that order. *)
Theorem weather_stage_argument_order request body c00 c01 rest date s :
  request_json request = inr (JDict body) →
  body !! "coordinates" = Some (JList (JList [c00; c01] :: rest)) →
  body !! "date" = Some date →
  validate_request strptime_ymd request = [] →
  ∃ later,
    calls (get_data py_format py_repr float_sum jsonify_raises strptime_ymd W request s).2
    = calls s
      ++ Call_get_open_meteo_weather c00 c01 date
         :: Call_requests_get
              ("https://api.open-meteo.com/v1/forecast?latitude="
               +:+ py_format c00 +:+ "&longitude=" +:+ py_format c01
               +:+ "&hourly=temperature_2m,relativehumidity_2m,wind_speed_10m,et0_fao_evapotranspiration&start="
               +:+ py_format date +:+ "T00:00:00Z&end=" +:+ py_format date
               +:+ "T23:59:59Z")
         :: later.
Proof.
  intros Hjson Hcoordinates Hdate Hvalid.
  rewrite (get_data_valid request body _ _ rest _ s Hjson Hcoordinates Hdate
             Hvalid).
  case_bool_decide; [by exists []|].
  unfold ndvi_final_state. cbn [calls]. rewrite <- app_assoc.
  case_bool_decide; eexists; done.
Qed.

(** The fields of the data of a weather reducer that reports no error. *)
Lemma weather_data_fields c00 c01 date s weather_data s1 :
  get_open_meteo_weather py_format py_repr float_sum W c00 c01 date s
  = (inr weather_data, s1) →
  errors weather_data = [] →
  ∃ t h w e,
    data weather_data = {[ "mean_temperature_2m_C" := JFloat t;
                           "mean_humidity_2m_%" := JFloat h;
                           "mean_wind_speed_10m_m_s" := JFloat w;
                           "sum_et0_mm" := e ]}
    ∧ is_int_or_float e.
Proof.
  rewrite get_open_meteo_weather_run. intros [= <- _].
  destruct (weather_outcome _ _ _ _ _ _ _) as [?|d] eqn:Hd; [done|]. intros _.
  apply weather_outcome_inv in Hd as (? & ? & _ & _ & _ & Hstat).
  apply weather_statistics_inv in Hstat
    as (? & ? & ? & ? & ? & ? & ? & ? & vt & vh & vw & ve
        & _ & _ & _ & _ & _ & _ & _ & _ & Hmt & Hmh & Hmw & Hsum & ->).
  apply mean_of_inv in Hmt as (? & t & _ & _ & ->).
  apply mean_of_inv in Hmh as (? & h & _ & _ & ->).
  apply mean_of_inv in Hmw as (? & w & _ & _ & ->).
  exists t, h, w, ve. split; [done|]. by eapply py_sum_inv.
Qed.

(** C9, amended.  When validation succeeds and both reducers return without
    errors, the response has status 200 and the body
    [{"status": "success", "data": ...}] whose data is the union of the data
    of the two reducers, provided that the two prints and [jsonify] return;
    when one of them raises, the response has status 400 and the body
    [{"error": ...}] with the text of the exception.  The fields of the
    merged data are exactly the four of the weather summary and [ndvi_mean]:
    the three means are floats, the sum is an integer or a float, and
    [ndvi_mean] is the value the imagery provider has answered, whatever it
    is. *)
Theorem pipeline_success
    request body c00 c01 rest date s weather_data s1 ndvi_data s2 :
  request_json request = inr (JDict body) →
  body !! "coordinates" = Some (JList (JList [c00; c01] :: rest)) →
  body !! "date" = Some date →
  validate_request strptime_ymd request = [] →
  get_open_meteo_weather py_format py_repr float_sum W c00 c01 date s
  = (inr weather_data, s1) →
  errors weather_data = [] →
  get_ndvi_data W (JList (JList [c00; c01] :: rest)) date s1
  = (inr ndvi_data, s2) →
  errors ndvi_data = [] →
  let merged := data ndvi_data ∪ data weather_data in
  let response :=
    get_data py_format py_repr float_sum jsonify_raises strptime_ymd W
      request s in
  let printed_ndvi := print_raises W [fetch_result_json ndvi_data] in
  let printed_response := print_raises W [success_body merged] in
  let serialized := jsonify_raises (success_body merged) in
  (printed_ndvi = None → printed_response = None → serialized = None →
   response = (inr (success_body merged, 200%Z), s2))
  ∧ (∀ e, printed_ndvi = Some e
          ∨ printed_ndvi = None ∧ printed_response = Some e
          ∨ printed_ndvi = None ∧ printed_response = None ∧ serialized = Some e →
          response = (inr (error_body (exn_str e), 400%Z), s2))
  ∧ success_body merged
    = JDict {[ "status" := JStr "success"; "data" := JDict merged ]}
  ∧ dom merged
    = ({[ "mean_temperature_2m_C"; "mean_humidity_2m_%";
          "mean_wind_speed_10m_m_s"; "sum_et0_mm"; "ndvi_mean" ]}
       : gset string)
  ∧ ∃ t h w e v,
      data weather_data = {[ "mean_temperature_2m_C" := JFloat t;
                             "mean_humidity_2m_%" := JFloat h;
                             "mean_wind_speed_10m_m_s" := JFloat w;
                             "sum_et0_mm" := e ]}
      ∧ is_int_or_float e
      ∧ data ndvi_data = {[ "ndvi_mean" := v ]}
      ∧ ee_getInfo W (ndvi_query (JList (JList [c00; c01] :: rest)) date)
        = inr v
      ∧ merged !! "ndvi_mean" = Some v
      ∧ ∀ key, key ≠ "ndvi_mean" → merged !! key = data weather_data !! key.
Proof.
  intros Hjson Hcoordinates Hdate Hvalid Hweather Hw Hndvi Hn.
  intros merged response printed_ndvi printed_response serialized.
  subst response printed_ndvi printed_response serialized.
  pose proof (weather_data_dom _ _ _ _ _ _ Hweather Hw) as Hdomw.
  pose proof (ndvi_data_dom _ _ _ _ _ Hndvi Hn) as Hdomn.
  destruct (weather_data_fields _ _ _ _ _ _ Hweather Hw)
    as (t & h & w & e & Hfields & He).
  assert (get_data py_format py_repr float_sum jsonify_raises strptime_ymd W
            request s
          = (inr (merge_response
                    (merge_outcome jsonify_raises W ndvi_data merged)), s2))
    as ->.
  { rewrite (get_data_valid request body _ _ rest _ s Hjson Hcoordinates Hdate
               Hvalid).
    rewrite get_open_meteo_weather_run in Hweather.
    injection Hweather as <- <-.
    rewrite get_ndvi_data_run in Hndvi. injection Hndvi as <- <-.
    cbn [ee_initialized] in *.
    rewrite bool_decide_false by (by intros ?).
    by rewrite bool_decide_false by (by intros ?). }
  destruct (merge_response_cases ndvi_data merged)
    as (Hreturns & Hfirst & Hsecond & Hthird & _).
  split_and!.
  - intros H1 H2 H3. by rewrite (Hreturns H1 H2 H3).
  - intros x [H1|[[H1 H2]|(H1 & H2 & H3)]].
    + by rewrite (Hfirst x H1).
    + by rewrite (Hsecond x H1 H2).
    + by rewrite (Hthird x H1 H2 H3).
  - done.
  - subst merged. rewrite dom_union_L, Hdomw, Hdomn. set_solver.
  - rewrite get_ndvi_data_run in Hndvi. injection Hndvi as <- <-.
    apply ndvi_result_no_error in Hn as (v & _ & Hv & _ & Hresult).
    exists t, h, w, e, v. subst merged. rewrite Hresult. cbn [data].
    split_and!; try done.
    + apply lookup_union_Some_l, lookup_singleton_eq.
    + intros key Hkey. apply lookup_union_r. by apply lookup_singleton_ne.
Qed.

End PipelineFacts.

(** ** The properties on the sample inputs *)



Lemma weather_reducer_substitutes_zeros_witness :
  (get_open_meteo_weather sample_format sample_repr sample_float_sum
     (sample_world 200 sample_hourly_no_et0 (inr JNone))
     (JFloat 10) (JFloat 20) (JStr "2024-06-01") sample_state).1
  = inr (FetchResult {[ "mean_temperature_2m_C" := JFloat 10;
                        "mean_humidity_2m_%" := JFloat (float_ratio 121 2);
                        "mean_wind_speed_10m_m_s" := JFloat (float_ratio 7 2);
                        "sum_et0_mm" := JInt 0 ]} []).
Proof.
  apply (proj1 (weather_reducer_substitutes_zeros sample_format sample_repr
                  sample_float_sum
                  (sample_world 200 sample_hourly_no_et0 (inr JNone))
                  (JFloat 10) (JFloat 20) (JStr "2024-06-01") sample_state
                  {| status_code := 200; text := "body";
                     response_json :=
                       inr (JDict {[ "hourly" := JDict sample_hourly_no_et0 ]}) |}
                  {[ "hourly" := JDict sample_hourly_no_et0 ]}
                  sample_hourly_no_et0
                  sample_temperature sample_humidity sample_wind_speed
                  (JFloat 10) (JFloat (float_ratio 121 2))
                  (JFloat (float_ratio 7 2))
                  eq_refl eq_refl eq_refl eq_refl eq_refl eq_refl eq_refl
                  eq_refl
                  ltac:(vm_compute; reflexivity)
                  ltac:(vm_compute; reflexivity)
                  ltac:(vm_compute; reflexivity))).
Defined.

(** C5 as stated fails: the hourly mapping below lacks the evapotranspiration
    series and holds the other three, the response has success status, and
    the reducer reports an error and returns no [sum_et0_mm]. *)
Lemma weather_reducer_substitution_counterexample :
  sample_hourly_no_temperatures !! "et0_fao_evapotranspiration" = None
  ∧ sample_hourly_no_temperatures !! "temperature_2m" = Some (JList [])
  ∧ sample_hourly_no_temperatures !! "relativehumidity_2m"
    = Some (JList sample_humidity)
  ∧ sample_hourly_no_temperatures !! "wind_speed_10m"
    = Some (JList sample_wind_speed)
  ∧ (get_open_meteo_weather sample_format sample_repr sample_float_sum
       (sample_world 200 sample_hourly_no_temperatures (inr JNone))
       (JFloat 10) (JFloat 20) (JStr "2024-06-01") sample_state).1
    = inr (FetchResult ∅ ["get_open_meteo_weather: division by zero"]).
Proof. vm_compute. split_and!; reflexivity. Qed.

Lemma weather_reducer_failure_witness :
  (get_open_meteo_weather sample_format sample_repr sample_float_sum
     (sample_world 500 sample_hourly (inr JNone))
     (JFloat 10) (JFloat 20) (JStr "2024-06-01") sample_state).1
  = inr (FetchResult ∅
           ["get_open_meteo_weather: ('Failed to fetch data:', 'body')"]).
Proof.
  apply (proj1 (weather_reducer_failure sample_format sample_repr
                  sample_float_sum
                  (sample_world 500 sample_hourly (inr JNone))
                  (JFloat 10) (JFloat 20) (JStr "2024-06-01") sample_state)
           {| status_code := 500; text := "body";
              response_json := inr (JDict {[ "hourly" := JDict sample_hourly ]}) |});
    [reflexivity | discriminate].
Defined.

Lemma weather_reducer_empty_series_witness :
  (get_open_meteo_weather sample_format sample_repr sample_float_sum
     (sample_world 200 sample_hourly_no_temperatures (inr JNone))
     (JFloat 10) (JFloat 20) (JStr "2024-06-01") sample_state).1
  = inr (FetchResult ∅ ["get_open_meteo_weather: division by zero"]).
Proof.
  apply (proj1 (proj2 (weather_reducer_empty_series sample_format sample_repr
                         sample_float_sum
                         (sample_world 200 sample_hourly_no_temperatures
                            (inr JNone))
                         (JFloat 10) (JFloat 20) (JStr "2024-06-01")
                         sample_state))
           {| status_code := 200; text := "body";
              response_json :=
                inr (JDict {[ "hourly" := JDict sample_hourly_no_temperatures ]}) |}
           {[ "hourly" := JDict sample_hourly_no_temperatures ]}
           sample_hourly_no_temperatures
           (JList []) (JList sample_humidity) (JList sample_wind_speed));
    try (vm_compute; reflexivity); eauto.
Defined.


Lemma validate_request_accepts_exactly_witness :
  validate_request sample_strptime sample_request = [].
Proof.
  apply (proj1 (validate_request_accepts_exactly sample_format sample_repr
                  sample_float_sum sample_jsonify sample_strptime
                  (sample_world 200 sample_hourly (inr JNone))
                  sample_request)).
  exists sample_body, sample_points, "2024-06-01".
  split_and!;
    [reflexivity | reflexivity | simpl; lia
     | repeat constructor; by eexists _, _ | reflexivity
     | vm_compute; reflexivity].
Defined.

Lemma weather_stage_argument_order_witness :
  ∃ later,
    calls (get_data sample_format sample_repr sample_float_sum sample_jsonify
             sample_strptime (sample_world 200 sample_hourly (inr JNone))
             sample_request sample_state).2
    = calls sample_state
      ++ Call_get_open_meteo_weather (JFloat 10) (JFloat 20) (JStr "2024-06-01")
         :: Call_requests_get
              ("https://api.open-meteo.com/v1/forecast?latitude="
               +:+ sample_format (JFloat 10) +:+ "&longitude="
               +:+ sample_format (JFloat 20)
               +:+ "&hourly=temperature_2m,relativehumidity_2m,wind_speed_10m,et0_fao_evapotranspiration&start="
               +:+ sample_format (JStr "2024-06-01") +:+ "T00:00:00Z&end="
               +:+ sample_format (JStr "2024-06-01") +:+ "T23:59:59Z")
         :: later.
Proof.
  apply (weather_stage_argument_order sample_format sample_repr
           sample_float_sum sample_jsonify sample_strptime
           (sample_world 200 sample_hourly (inr JNone)) sample_request
           sample_body (JFloat 10) (JFloat 20) (tail sample_points)
           (JStr "2024-06-01") sample_state);
    vm_compute; reflexivity.
Defined.

Lemma vegetation_reducer_selects_least_cloudy_witness :
  ∃ r,
    (get_ndvi_data sample_provider_world (JList sample_points)
       (JStr "2024-06-02") sample_state).1 = inr r
    ∧ data r = {[ "ndvi_mean" := JFloat (float_ratio 3 5) ]}
    ∧ (print_raises sample_provider_world
         [JStr "NDVI mean value:"; JFloat (float_ratio 3 5)] = None →
       errors r = []).
Proof.
  apply (proj1 (proj2 (proj2 (proj2
           (vegetation_reducer_selects_least_cloudy sample_provider
              sample_provider_world (JList sample_points) (JStr "2024-06-02")
              sample_state eq_refl))))
           {| scene_day := 1; scene_cloud := 5;
              scene_ndvi := float_ratio 3 5 |}
           (JFloat (float_ratio 3 5)));
    [left; reflexivity | vm_compute; reflexivity | reflexivity].
Defined.

Lemma validate_request_point_floats_witness :
  "Point " +:+ pretty (0 + 1) +:+ " must contain two floats (lon, lat)."
  ∈ validate_request sample_strptime sample_request_integers.
Proof.
  apply (proj2 (proj1 (validate_request_point_floats sample_strptime
                         sample_request_integers
                         sample_body_integers sample_points_integers
                         0 (JInt 10) (JInt 20)
                         eq_refl eq_refl (le_n 4) eq_refl))).
  by intros [[] _].
Defined.

Lemma pipeline_success_witness :
  ∃ d s2,
    get_data sample_format sample_repr sample_float_sum sample_jsonify
      sample_strptime
      (sample_world 200 sample_hourly (inr (JFloat (float_ratio 3 5))))
      sample_request sample_state
    = (inr (success_body d, 200%Z), s2)
    ∧ dom d = ({[ "mean_temperature_2m_C"; "mean_humidity_2m_%";
                  "mean_wind_speed_10m_m_s"; "sum_et0_mm"; "ndvi_mean" ]}
               : gset string)
    ∧ d !! "ndvi_mean" = Some (JFloat (float_ratio 3 5)).
Proof.
  destruct
    (pipeline_success sample_format sample_repr sample_float_sum
       sample_jsonify sample_strptime
       (sample_world 200 sample_hourly (inr (JFloat (float_ratio 3 5))))
       sample_request sample_body (JFloat 10) (JFloat 20) (tail sample_points)
       (JStr "2024-06-01") sample_state _ _ _ _
       eq_refl eq_refl eq_refl
       ltac:(vm_compute; reflexivity)
       (get_open_meteo_weather_run sample_format sample_repr sample_float_sum
          (sample_world 200 sample_hourly (inr (JFloat (float_ratio 3 5))))
          (JFloat 10) (JFloat 20) (JStr "2024-06-01") sample_state)
       ltac:(vm_compute; reflexivity)
       (get_ndvi_data_run
          (sample_world 200 sample_hourly (inr (JFloat (float_ratio 3 5))))
          (JList sample_points) (JStr "2024-06-01") _)
       ltac:(vm_compute; reflexivity))
    as (Hresponse & _ & _ & Hdom & Hfields).
  eexists _, _. split_and!.
  - apply Hresponse; vm_compute; reflexivity.
  - exact Hdom.
  - vm_compute. reflexivity.
Defined.

(** C9 as stated fails.  The request passes validation, the weather provider
    answers 24 evapotranspiration entries that are the integer 10^4300 - 1
    of 4300 digits, and both reducers return without error; the sum has 4302
    digits,
    printing the response raises, and the handler answers with status 400 and
    the text of the exception under [error]. *)
Lemma pipeline_success_counterexample :
  validate_request sample_strptime sample_request = []
  ∧ sample_hourly_long_digits !! "et0_fao_evapotranspiration"
    = Some (JList (replicate 24 (JInt sample_longest_integer)))
  ∧ ∃ weather_data s1 ndvi_data s2,
      get_open_meteo_weather sample_format sample_repr sample_float_sum
        (sample_world 200 sample_hourly_long_digits
           (inr (JFloat (float_ratio 3 5))))
        (JFloat 10) (JFloat 20) (JStr "2024-06-01") sample_state
      = (inr weather_data, s1)
      ∧ errors weather_data = []
      ∧ data weather_data !! "sum_et0_mm"
        = Some (JInt (24 * sample_longest_integer))
      ∧ get_ndvi_data
          (sample_world 200 sample_hourly_long_digits
             (inr (JFloat (float_ratio 3 5))))
          (JList sample_points) (JStr "2024-06-01") s1
        = (inr ndvi_data, s2)
      ∧ errors ndvi_data = []
      ∧ get_data sample_format sample_repr sample_float_sum sample_jsonify
          sample_strptime
          (sample_world 200 sample_hourly_long_digits
             (inr (JFloat (float_ratio 3 5))))
          sample_request sample_state
        = (inr (error_body
                  "Exceeds the limit (4300 digits) for integer string conversion; use sys.set_int_max_str_digits() to increase the limit",
                400%Z),
           s2).
Proof.
  split_and!; [vm_compute; reflexivity..|].
  eexists _, _, _, _. split_and!; vm_compute; reflexivity.
Qed.

(** * Further properties of the code *)

(** ** Validation *)

Section ValidationEdges.

Variable strptime_ymd : string → option string.

(** X1.  A body that cannot be parsed, or that is not a mapping, gives
    exactly one error, which starts with the name of the validator; the
    rules on the coordinates and on the date are not evaluated. *)
Theorem validate_request_malformed_body request :
  (∀ e, request_json request = inl e →
        validate_request strptime_ymd request
        = ["validate_request: " +:+ exn_str e])
  ∧ (∀ v, request_json request = inr v → (∀ body, v ≠ JDict body) →
          validate_request strptime_ymd request
          = ["validate_request: '" +:+ type_name v
             +:+ "' object has no attribute 'get'"]).
Proof.
  split.
  - intros e Hjson. unfold validate_request, try_except. by rewrite Hjson.
  - intros v Hjson Hnot. unfold validate_request, try_except. rewrite Hjson.
    destruct v; try done. by destruct (Hnot m).
Qed.

(** X2.  When [coordinates] is missing, is not a list, or has fewer than 4
    points, the validator reports the error on the coordinates once and does
    not look at the points; the date is still checked. *)
Theorem validate_request_short_coordinates request body :
  request_json request = inr (JDict body) →
  (∀ points, body !! "coordinates" = Some (JList points) → length points < 4) →
  validate_request strptime_ymd request
  = "Coordinates must be a list with at least 4 points."
    :: date_errors strptime_ymd (default JNone (body !! "date")).
Proof.
  intros Hjson Hshort. rewrite (validate_request_dict _ request body Hjson).
  unfold coordinates_errors.
  destruct (body !! "coordinates") as [[| | | | |points|]|] eqn:Hc; try done.
  simpl. destruct (decide (length points < 4)) as [|Hlen]; [done|].
  destruct Hlen. by apply Hshort.
Qed.

(** X3.  In a list of at least 4 points, the error about the shape of the
    point at index [i] is reported exactly when that point is not a list of
    two elements, and then the error about floats is not reported for it. *)
Theorem validate_request_point_shape request body points i point :
  request_json request = inr (JDict body) →
  body !! "coordinates" = Some (JList points) →
  4 ≤ length points →
  points !! i = Some point →
  let errors_ := validate_request strptime_ymd request in
  let about_floats :=
    "Point " +:+ pretty (i + 1) +:+ " must contain two floats (lon, lat)." in
  let about_shape :=
    "Point " +:+ pretty (i + 1) +:+ " is not a list of two elements." in
  (about_shape ∈ errors_ ↔ is_pair point = false)
  ∧ (is_pair point = false → about_floats ∉ errors_).
Proof.
  intros Hjson Hpoints Hlen Hpoint errors_ about_floats about_shape.
  subst errors_ about_floats about_shape.
  destruct (elem_of_validate_request strptime_ymd request body points i _
              Hjson Hpoints Hlen Hpoint) as [Hfloats Hshape].
  fold (floats_message i) (shape_message i). rewrite Hfloats, Hshape.
  assert (floats_message i ∉ [shape_message i]) as Hne.
  { intros Hin%list_elem_of_singleton. by apply floats_message_ne_shape in Hin. }
  assert (shape_message i ∉ [floats_message i]) as Hne'.
  { intros Hin%list_elem_of_singleton. symmetry in Hin.
    by apply floats_message_ne_shape in Hin. }
  unfold point_errors.
  destruct point as [| | | | |[|a [|b [|? ?]]]|]; simpl;
    try (split; [split; [done|intros _; by apply list_elem_of_singleton]
                |intros _; exact Hne]).
  destruct (isinstance_float a && isinstance_float b); simpl.
  - split; [split; [by intros ?%elem_of_nil|done]|done].
  - split; [split; [by intros ?%Hne'|done]|done].
Qed.

Lemma date_error_not_of_coordinates coordinates :
  date_error ∉ coordinates_errors coordinates.
Proof.
  assert (date_error ∉ [coordinates_error]) as Hne
    by (by intros ?%list_elem_of_singleton).
  unfold coordinates_errors.
  destruct coordinates as [| | | | |points|]; try done.
  destruct (decide (length points < 4)); [done|].
  intros (j & p & _ & Hin)%elem_of_points_errors.
  apply point_errors_incl in Hin as [Heq|Heq]; symmetry in Heq.
  - by apply floats_message_ne_date in Heq.
  - by apply shape_message_ne_date in Heq.
Qed.

(** X4.  Whatever the coordinates are, the error on the date is reported
    exactly when [date] is missing, is not a string, or does not parse; it is
    then the last error of the list. *)
Theorem validate_request_date_rule request body :
  request_json request = inr (JDict body) →
  let errors_ := validate_request strptime_ymd request in
  let about_date := "Date must be a valid string in 'YYYY-MM-DD' format." in
  let parses := ∃ d, body !! "date" = Some (JStr d) ∧ strptime_ymd d = None in
  (about_date ∈ errors_ ↔ ¬ parses)
  ∧ (¬ parses → last errors_ = Some about_date).
Proof.
  intros Hjson errors_ about_date parses. subst errors_ about_date parses.
  rewrite (validate_request_dict _ request body Hjson).
  fold date_error.
  assert ((∃ d, body !! "date" = Some (JStr d) ∧ strptime_ymd d = None)
          ↔ date_errors strptime_ymd (default JNone (body !! "date")) = [])
    as Hparses.
  { rewrite date_errors_nil. split.
    - intros (d & Hd & Hparse). exists d. by rewrite Hd.
    - intros (d & Hd & Hparse). exists d. split; [|done].
      destruct (body !! "date"); simpl in Hd; by subst. }
  rewrite Hparses.
  assert (∀ date, date_errors strptime_ymd date = []
                  ∨ date_errors strptime_ymd date = [date_error]) as Hcases.
  { intros date. unfold date_errors. destruct (strptime _ _); eauto. }
  destruct (Hcases (default JNone (body !! "date"))) as [->| ->].
  - rewrite app_nil_r. split; [|done]. split; [|done].
    intros Hin. by apply date_error_not_of_coordinates in Hin.
  - split.
    + split; [done|]. intros _. apply elem_of_app. right.
      by apply list_elem_of_singleton.
    + intros _. by rewrite last_snoc.
Qed.

Lemma length_point_errors i point :
  length (point_errors i point) = if is_float_pair point then 0 else 1.
Proof.
  unfold point_errors.
  destruct point as [| | | | |[|a [|b [|? ?]]]|]; try done.
  simpl. by destruct (isinstance_float a && isinstance_float b).
Qed.

Lemma length_points_errors points : ∀ i,
  length (points_errors i points)
  = length (filter (λ p, is_float_pair p = false) points).
Proof.
  induction points as [|p points IH]; intros i; [done|].
  rewrite points_errors_cons, length_app, IH, length_point_errors, filter_cons.
  destruct (is_float_pair p); by destruct (decide _).
Qed.

(** X5.  In a list of at least 4 points every point that is not a list of two
    floats gives one error and the others give none, so that the validator
    returns as many errors as there are such points, and one more when the
    date is rejected. *)
Theorem validate_request_error_count request body points :
  request_json request = inr (JDict body) →
  body !! "coordinates" = Some (JList points) →
  4 ≤ length points →
  length (validate_request strptime_ymd request)
  = length (filter (λ p, is_float_pair p = false) points)
    + length (date_errors strptime_ymd (default JNone (body !! "date")))
  ∧ length (date_errors strptime_ymd (default JNone (body !! "date"))) ≤ 1
  ∧ length (validate_request strptime_ymd request) ≤ length points + 1.
Proof.
  intros Hjson Hpoints Hlen.
  rewrite (validate_request_dict _ request body Hjson), Hpoints.
  unfold coordinates_errors. simpl.
  destruct (decide (length points < 4)); [lia|].
  rewrite length_app, length_points_errors.
  assert (length (date_errors strptime_ymd (default JNone (body !! "date")))
          ≤ 1) as Hdate.
  { unfold date_errors. destruct (strptime _ _); simpl; lia. }
  pose proof (length_filter (λ p, is_float_pair p = false) points).
  split_and!; [done|done|lia].
Qed.

End ValidationEdges.

(** ** The weather reducer *)

Section WeatherEdges.

Variable py_format : json → string.
Variable py_repr : string → string.
Variable float_sum : Z → list number → result pyfloat.

(** X6.  Whatever the provider answers, one invocation of the weather reducer
    makes exactly one request, to the address built from its arguments, and
    leaves the flag of the imagery session as it was. *)
Theorem weather_reducer_calls W lat lon date s :
  (get_open_meteo_weather py_format py_repr float_sum W lat lon date s).2
  = State (ee_initialized s)
      (calls s ++ [Call_get_open_meteo_weather lat lon date;
                   Call_requests_get (open_meteo_url py_format lat lon date)]).
Proof. by rewrite get_open_meteo_weather_run. Qed.

(** X7.  Only the first 24 entries of each series are read: two responses
    with success status whose four series agree on their first 24 entries
    give the same result, whatever follows in the series and in the rest of
    the two bodies. *)
Theorem weather_reducer_first_24_only
    W1 W2 lat lon date s1 s2 r1 r2 b1 b2 h1 h2 :
  requests_get W1 (open_meteo_url py_format lat lon date) = inr r1 →
  requests_get W2 (open_meteo_url py_format lat lon date) = inr r2 →
  status_code r1 = 200%Z → status_code r2 = 200%Z →
  response_json r1 = inr (JDict b1) → response_json r2 = inr (JDict b2) →
  b1 !! "hourly" = Some (JDict h1) → b2 !! "hourly" = Some (JDict h2) →
  (∀ key, key ∈ hourly_keys →
          ∃ l1 l2, h1 !! key = Some (JList l1) ∧ h2 !! key = Some (JList l2)
                   ∧ take 24 l1 = take 24 l2) →
  (get_open_meteo_weather py_format py_repr float_sum W1 lat lon date s1).1
  = (get_open_meteo_weather py_format py_repr float_sum W2 lat lon date s2).1.
Proof.
  intros Hget1 Hget2 Hs1 Hs2 Hj1 Hj2 Hh1 Hh2 Hkeys.
  rewrite !get_open_meteo_weather_run. cbn [fst]. do 2 f_equal.
  unfold weather_outcome. rewrite Hget1, Hget2. run_pure.
  rewrite Hs1, Hs2, Hj1, Hj2. rewrite bool_decide_false by (by intros ?).
  unfold weather_statistics, py_getitem, py_get_default.
  rewrite Hh1, Hh2. run_pure.
  destruct (Hkeys "temperature_2m") as (t1 & t2 & -> & -> & Ht);
    [set_solver|].
  destruct (Hkeys "relativehumidity_2m") as (u1 & u2 & -> & -> & Hu);
    [set_solver|].
  destruct (Hkeys "wind_speed_10m") as (w1 & w2 & -> & -> & Hw);
    [set_solver|].
  destruct (Hkeys "et0_fao_evapotranspiration") as (e1 & e2 & -> & -> & He);
    [set_solver|].
  unfold py_slice24. simpl. by rewrite Ht, Hu, Hw, He.
Qed.

Variable W : world.

(** X8.  When the weather reducer reports no error, its data holds the four
    fields, the three means are floats (also when every entry is an integer)
    and the sum is an integer or a float. *)
Theorem weather_reducer_field_types lat lon date s r :
  (get_open_meteo_weather py_format py_repr float_sum W lat lon date s).1 = inr r →
  errors r = [] →
  ∃ t h w e,
    data r = {[ "mean_temperature_2m_C" := JFloat t;
                "mean_humidity_2m_%" := JFloat h;
                "mean_wind_speed_10m_m_s" := JFloat w;
                "sum_et0_mm" := e ]}
    ∧ is_int_or_float e.
Proof.
  intros Hr Herrors.
  destruct (weather_reducer_result py_format py_repr float_sum W lat lon date s)
    as (r' & Hr' & [(d & Hd & ->)|(e & He & ->)]);
    rewrite Hr in Hr'; simplify_eq; try done.
  apply weather_outcome_inv in Hd as (? & ? & _ & _ & _ & Hstat).
  apply weather_statistics_inv in Hstat
    as (? & ? & ? & ? & ? & ? & ? & ? & vt & vh & vw & ve
        & _ & _ & _ & _ & _ & _ & _ & _ & Hmt & Hmh & Hmw & Hsum & ->).
  apply mean_of_inv in Hmt as (? & t & _ & _ & ->).
  apply mean_of_inv in Hmh as (? & h & _ & _ & ->).
  apply mean_of_inv in Hmw as (? & w & _ & _ & ->).
  exists t, h, w, ve. split; [done|]. by eapply py_sum_inv.
Qed.

(** X9.  An entry that is not a number (a null, a string) among the first 24
    entries of one of the four series makes the reducer fail: it returns no
    data and exactly one error, which starts with its name. *)
Theorem weather_reducer_rejects_non_number
    lat lon date s response body hourly key series x :
  requests_get W (open_meteo_url py_format lat lon date) = inr response →
  status_code response = 200%Z →
  response_json response = inr (JDict body) →
  body !! "hourly" = Some (JDict hourly) →
  key ∈ hourly_keys →
  hourly !! key = Some (JList series) →
  x ∈ take 24 series →
  number_value x = None →
  ∃ msg,
    (get_open_meteo_weather py_format py_repr float_sum W lat lon date s).1
    = inr (FetchResult ∅ ["get_open_meteo_weather: " +:+ msg]).
Proof.
  intros Hget Hstatus Hjson Hhourly Hkey Hseries Hx Hnone.
  destruct (weather_reducer_result py_format py_repr float_sum W lat lon date s)
    as (r & -> & [(d & Hd & ->)|(e & He & ->)]); [|by eexists].
  exfalso.
  apply weather_outcome_inv in Hd
    as (response' & body' & Hget' & _ & Hjson' & Hstat).
  rewrite Hget in Hget'. injection Hget' as <-.
  rewrite Hjson in Hjson'. injection Hjson' as <-.
  apply weather_statistics_inv in Hstat
    as (hourly' & xt & xh & xw & t & h & w & e & vt & vh & vw & ve
        & Hh & Hxt & Hst & Hxh & Hsh & Hxw & Hsw & He
        & Hmt & Hmh & Hmw & Hsum & _).
  simpl in Hh. rewrite Hhourly in Hh. simplify_eq. simpl in *.
  assert (Forall (λ y, is_Some (number_value y)) (take 24 series)) as Hall.
  { unfold hourly_keys in Hkey.
    apply elem_of_cons in Hkey as [->|Hkey].
    { rewrite Hseries in Hxt. simplify_eq/=. by eapply mean_of_list_inv. }
    apply elem_of_cons in Hkey as [->|Hkey].
    { rewrite Hseries in Hxh. simplify_eq/=. by eapply mean_of_list_inv. }
    apply elem_of_cons in Hkey as [->|Hkey].
    { rewrite Hseries in Hxw. simplify_eq/=. by eapply mean_of_list_inv. }
    apply list_elem_of_singleton in Hkey as ->.
    rewrite Hseries in He. simplify_eq/=. by eapply py_sum_list_inv. }
  eapply Forall_forall in Hall; [|exact Hx]. rewrite Hnone in Hall.
  by destruct Hall.
Qed.

(** X10.  The 24 zeros stand in for the evapotranspiration series only when
    its key is absent: a value that is present but is neither a list nor a
    string, such as a null, makes the reducer fail with one error. *)
Theorem weather_reducer_et0_not_substituted
    lat lon date s response body hourly v :
  requests_get W (open_meteo_url py_format lat lon date) = inr response →
  status_code response = 200%Z →
  response_json response = inr (JDict body) →
  body !! "hourly" = Some (JDict hourly) →
  hourly !! "et0_fao_evapotranspiration" = Some v →
  (∀ l, v ≠ JList l) → (∀ s', v ≠ JStr s') →
  ∃ msg,
    (get_open_meteo_weather py_format py_repr float_sum W lat lon date s).1
    = inr (FetchResult ∅ ["get_open_meteo_weather: " +:+ msg]).
Proof.
  intros Hget Hstatus Hjson Hhourly Hv Hlist Hstr.
  destruct (weather_reducer_result py_format py_repr float_sum W lat lon date s)
    as (r & -> & [(d & Hd & ->)|(e & He & ->)]); [|by eexists].
  exfalso.
  apply weather_outcome_inv in Hd
    as (response' & body' & Hget' & _ & Hjson' & Hstat).
  rewrite Hget in Hget'. injection Hget' as <-.
  rewrite Hjson in Hjson'. injection Hjson' as <-.
  apply weather_statistics_inv in Hstat
    as (hourly' & ? & ? & ? & ? & ? & ? & e & ? & ? & ? & ?
        & Hh & _ & _ & _ & _ & _ & _ & He & _).
  simpl in Hh. rewrite Hhourly in Hh. simplify_eq. simpl in He.
  rewrite Hv in He. simpl in He.
  destruct v; simplify_eq/=; [by eapply Hstr|by eapply Hlist].
Qed.

(** X11.  An evapotranspiration series that is present and empty is no
    failure, unlike an empty averaged series: whenever
    [sum(series) / len(series)] of the first 24 entries of the three other
    series returns, the reducer returns the three means and the integer 0 as
    the sum, without error. *)
Theorem weather_reducer_empty_et0
    lat lon date s response body hourly ts hs ws vt vh vw :
  requests_get W (open_meteo_url py_format lat lon date) = inr response →
  status_code response = 200%Z →
  response_json response = inr (JDict body) →
  body !! "hourly" = Some (JDict hourly) →
  hourly !! "temperature_2m" = Some (JList ts) →
  hourly !! "relativehumidity_2m" = Some (JList hs) →
  hourly !! "wind_speed_10m" = Some (JList ws) →
  hourly !! "et0_fao_evapotranspiration" = Some (JList []) →
  mean_of float_sum (JList (take 24 ts)) = inr vt →
  mean_of float_sum (JList (take 24 hs)) = inr vh →
  mean_of float_sum (JList (take 24 ws)) = inr vw →
  (get_open_meteo_weather py_format py_repr float_sum W lat lon date s).1
  = inr (FetchResult {[ "mean_temperature_2m_C" := vt;
                        "mean_humidity_2m_%" := vh;
                        "mean_wind_speed_10m_m_s" := vw;
                        "sum_et0_mm" := JInt 0 ]} []).
Proof.
  intros Hget Hstatus Hjson Hhourly Ht Hh Hw He Hvt Hvh Hvw.
  assert (default (JList (replicate 24 (JInt 0)))
            (hourly !! "et0_fao_evapotranspiration") = JList []) as He'
    by by rewrite He.
  rewrite (weather_reducer_of_statistics _ _ _ _ _ _ _ _ _ _
             Hget Hstatus Hjson).
  rewrite (weather_statistics_series _ _ _ _ _ _ _ Hhourly Ht Hh Hw He').
  by rewrite Hvt, Hvh, Hvw.
Qed.

(** X12.  A parsed body without the key [hourly] makes the reducer fail with
    the text of the [KeyError]; so does, with some error, a body that is not
    a mapping and an [hourly] value that is not a mapping. *)
Theorem weather_reducer_missing_hourly lat lon date s response body :
  requests_get W (open_meteo_url py_format lat lon date) = inr response →
  status_code response = 200%Z →
  response_json response = inr body →
  let returned :=
    (get_open_meteo_weather py_format py_repr float_sum W lat lon date s).1 in
  let failure msg := inr (FetchResult ∅ ["get_open_meteo_weather: " +:+ msg]) in
  (∀ fields, body = JDict fields → fields !! "hourly" = None →
             returned = failure "'hourly'")
  ∧ ((∀ fields, body ≠ JDict fields) → ∃ msg, returned = failure msg)
  ∧ (∀ fields hourly, body = JDict fields → fields !! "hourly" = Some hourly →
                      (∀ series, hourly ≠ JDict series) →
                      ∃ msg, returned = failure msg).
Proof.
  intros Hget Hstatus Hjson returned failure. subst returned failure.
  assert (∀ e, weather_statistics float_sum body = inl e →
            (get_open_meteo_weather py_format py_repr float_sum W lat lon date s).1
            = inr (FetchResult ∅ ["get_open_meteo_weather: " +:+ exn_str e]))
    as Hfail.
  { intros e He. apply weather_reducer_error. unfold weather_outcome.
    rewrite Hget. run_pure. rewrite Hstatus, Hjson, He.
    by rewrite bool_decide_false by (intros ?; done). }
  split_and!.
  - intros fields -> Hnone.
    apply (Hfail (Exn KeyError "'hourly'")).
    unfold weather_statistics, py_getitem. by rewrite Hnone.
  - intros Hnot.
    destruct (weather_statistics float_sum body) as [e|d] eqn:Hstat;
      [eexists; by apply Hfail|].
    apply weather_statistics_inv in Hstat as (? & ? & ? & ? & ? & ? & ? & ?
      & ? & ? & ? & ? & Hh & _).
    destruct body; simplify_eq/=. by edestruct Hnot.
  - intros fields hourly -> Hhourly Hnot.
    destruct (weather_statistics float_sum (JDict fields)) as [e|d] eqn:Hstat;
      [eexists; by apply Hfail|].
    apply weather_statistics_inv in Hstat as (hourly' & ? & ? & ? & ? & ? & ?
      & ? & ? & ? & ? & ? & Hh & Hxt & _).
    simpl in Hh. rewrite Hhourly in Hh. simplify_eq.
    destruct hourly'; simplify_eq/=. by edestruct Hnot.
Qed.

End WeatherEdges.

(** ** The vegetation-index reducer *)

Section VegetationEdges.

Variable W : world.

(** X13.  With a session that is initialized or can be, the vegetation
    reducer stores what the provider answers under [ndvi_mean], unchanged,
    whatever the value (a null too), and then prints it: when the print
    returns the reducer reports no error, and when the print raises it
    returns the value together with that one error.  An exception of the
    provider is returned as no data and exactly one error, which starts with
    the name of the reducer. *)
Theorem vegetation_reducer_result coordinates date s :
  ee_initialized s = true ∨ ee_Initialize W = None →
  let returned := (get_ndvi_data W coordinates date s).1 in
  (∀ v, ee_getInfo W (ndvi_query coordinates date) = inr v →
        print_raises W [JStr "NDVI mean value:"; v] = None →
        returned = inr (FetchResult {[ "ndvi_mean" := v ]} []))
  ∧ (∀ v e, ee_getInfo W (ndvi_query coordinates date) = inr v →
            print_raises W [JStr "NDVI mean value:"; v] = Some e →
            returned = inr (FetchResult {[ "ndvi_mean" := v ]}
                              ["get_ndvi_data: " +:+ exn_str e]))
  ∧ (∀ e, ee_getInfo W (ndvi_query coordinates date) = inl e →
          returned = inr (FetchResult ∅ ["get_ndvi_data: " +:+ exn_str e])).
Proof.
  intros Hinit returned. subst returned. rewrite get_ndvi_data_run.
  cbn [fst].
  pose proof (ndvi_outcome_session W _ coordinates date Hinit) as Houtcome.
  split_and!.
  - intros v Hv Hprint. rewrite Hv in Houtcome.
    destruct (ndvi_result_answer W _ _ _ _ Houtcome) as (_ & Hreturns & _).
    by rewrite (Hreturns Hprint).
  - intros v e Hv Hprint. rewrite Hv in Houtcome.
    destruct (ndvi_result_answer W _ _ _ _ Houtcome) as (_ & _ & Hraises).
    by rewrite (Hraises e Hprint).
  - intros e He. rewrite He in Houtcome.
    by rewrite (ndvi_result_failure W _ _ _ _ Houtcome).
Qed.

(** X14.  The session is initialized on demand.  With the flag set the
    reducer does not call [ee.Initialize] and queries the provider.  With the
    flag unset it calls [ee.Initialize] first: when that raises, the provider
    is not queried, the flag stays unset and the exception is the one error
    returned; when it returns, the flag is set and the provider is queried. *)
Theorem vegetation_reducer_lazy_initialize coordinates date cs :
  let query := ndvi_query coordinates date in
  let invoked := Call_get_ndvi_data coordinates date in
  (get_ndvi_data W coordinates date (State true cs)).2
  = State true (cs ++ [invoked; Call_getInfo query])
  ∧ (∀ e, ee_Initialize W = Some e →
          get_ndvi_data W coordinates date (State false cs)
          = (inr (FetchResult ∅ ["get_ndvi_data: " +:+ exn_str e]),
             State false (cs ++ [invoked; Call_ee_Initialize])))
  ∧ (ee_Initialize W = None →
     (get_ndvi_data W coordinates date (State false cs)).2
     = State true (cs ++ [invoked; Call_ee_Initialize; Call_getInfo query])).
Proof.
  intros query invoked. subst query invoked. split_and!.
  - by rewrite get_ndvi_data_run.
  - intros e He. rewrite get_ndvi_data_run.
    unfold ndvi_result, ndvi_outcome, ndvi_final_state, ndvi_provider_calls,
      reducer_error.
    simpl. rewrite He. by rewrite bool_decide_false.
  - intros Hnone. rewrite get_ndvi_data_run.
    unfold ndvi_final_state, ndvi_provider_calls. simpl.
    rewrite Hnone. by rewrite bool_decide_true.
Qed.

End VegetationEdges.

(** ** The handler *)

Section HandlerEdges.

Variable py_format : json → string.
Variable py_repr : string → string.
Variable float_sum : Z → list number → result pyfloat.
Variable jsonify_raises : json → option exn.
Variable strptime_ymd : string → option string.
Variable W : world.

Lemma validated_request request :
  validate_request strptime_ymd request = [] →
  ∃ body lon lat rest date,
    request_json request = inr (JDict body)
    ∧ body !! "coordinates"
      = Some (JList (JList [JFloat lon; JFloat lat] :: rest))
    ∧ body !! "date" = Some (JStr date).
Proof.
  intros Hvalid.
  destruct (proj1 (validate_request_nil strptime_ymd request) Hvalid)
    as (body & points & d & Hjson & Hpoints & Hlen & Hfloats & Hd & _).
  destruct points as [|point rest]; [simpl in Hlen; lia|].
  apply Forall_cons in Hfloats as [(lon & lat & ->) _].
  by exists body, lon, lat, rest, d.
Qed.

(** The outcome of the merge returns the success body when the two prints
    and [jsonify] return, and raises what the first of them that raises
    does. *)
Lemma merge_outcome_inv ndvi_data merged :
  match merge_outcome jsonify_raises W ndvi_data merged with
  | inr body => body = success_body merged
  | inl e =>
      print_raises W [fetch_result_json ndvi_data] = Some e
      ∨ print_raises W [success_body merged] = Some e
      ∨ jsonify_raises (success_body merged) = Some e
  end.
Proof.
  unfold merge_outcome, py_print, jsonify.
  destruct (print_raises W [fetch_result_json ndvi_data]); [by left|].
  run_pure.
  destruct (print_raises W [success_body merged]); [right; by left|].
  destruct (jsonify_raises (success_body merged)); [right; by right|done].
Qed.



(** X17.  The handler only adds to the record of calls, and a session that is
    initialized stays so. *)
Theorem get_data_state_grows request s :
  let s' :=
    (get_data py_format py_repr float_sum jsonify_raises strptime_ymd W
       request s).2 in
  (∃ made, calls s' = calls s ++ made)
  ∧ (ee_initialized s = true → ee_initialized s' = true).
Proof.
  intros s'. subst s'.
  destruct (decide (validate_request strptime_ymd request = [])) as [Hvalid|Hbad].
  - destruct (validated_request request Hvalid)
      as (body & lon & lat & rest & date & Hjson & Hpoints & Hdate).
    rewrite (get_data_valid py_format py_repr float_sum jsonify_raises
               strptime_ymd W request body
               _ _ rest _ s Hjson Hpoints Hdate Hvalid).
    case_bool_decide; [split; [by eexists|done]|].
    unfold ndvi_final_state.
    case_bool_decide; cbn [snd calls ee_initialized];
      (split; [rewrite <- app_assoc; by eexists|by intros ->]).
  - rewrite (get_data_invalid py_format py_repr float_sum jsonify_raises
               strptime_ymd W request s Hbad).
    split; [exists []; by rewrite app_nil_r|done].
Qed.

(** X18.  In a world that answers the same call in the same way, repeating a
    request gives the same response: the body and the status returned from
    the state the first run leaves are those of the first run. *)
Theorem get_data_repeatable request s :
  let first_run :=
    get_data py_format py_repr float_sum jsonify_raises strptime_ymd W
      request s in
  (get_data py_format py_repr float_sum jsonify_raises strptime_ymd W
     request first_run.2).1
  = first_run.1.
Proof.
  intros first_run. subst first_run.
  destruct (decide (validate_request strptime_ymd request = [])) as [Hvalid|Hbad].
  - destruct (validated_request request Hvalid)
      as (body & lon & lat & rest & date & Hjson & Hpoints & Hdate).
    rewrite (get_data_valid py_format py_repr float_sum jsonify_raises
               strptime_ymd W request body
               _ _ rest _ s Hjson Hpoints Hdate Hvalid).
    set (coordinates := JList (JList [JFloat lon; JFloat lat] :: rest)).
    set (w := reducer_result "get_open_meteo_weather"
                (weather_outcome py_format py_repr float_sum W
                   (JFloat lon) (JFloat lat) (JStr date))).
    set (n := ndvi_result W (ee_initialized s) coordinates (JStr date)).
    assert (ndvi_result W (ee_initialized s
                           || bool_decide (ee_Initialize W = None))
              coordinates (JStr date)
            = n) as Hsame.
    { unfold n, ndvi_result, ndvi_outcome. destruct (ee_initialized s); [done|].
      simpl.
      destruct (ee_Initialize W); [by rewrite bool_decide_false|].
      by rewrite bool_decide_true. }
    destruct (bool_decide (errors w ≠ [])) eqn:Hw.
    { cbn [snd fst].
      rewrite (get_data_valid py_format py_repr float_sum jsonify_raises
                 strptime_ymd W request body
                 _ _ rest _ _ Hjson Hpoints Hdate Hvalid).
      fold w. by rewrite Hw. }
    destruct (bool_decide (errors n ≠ [])) eqn:Hn; cbn [snd fst];
      rewrite (get_data_valid py_format py_repr float_sum jsonify_raises
                 strptime_ymd W request body
                 _ _ rest _ _ Hjson Hpoints Hdate Hvalid);
      fold w coordinates; rewrite Hw; unfold ndvi_final_state;
      cbn [ee_initialized]; rewrite Hsame; by rewrite Hn.
  - by rewrite !(get_data_invalid py_format py_repr float_sum jsonify_raises
                   strptime_ymd W request _ Hbad).
Qed.

(** X19.  In a success response nothing is lost in the merge: the response
    has status 200 only when the weather reducer has reported no error and
    the provider has answered, [ndvi_mean] is then the value the provider
    answered, a null included, and every other field has the value the
    weather reducer gave it. *)
Theorem get_data_merged_fields request body c00 c01 rest date s payload :
  request_json request = inr (JDict body) →
  body !! "coordinates" = Some (JList (JList [c00; c01] :: rest)) →
  body !! "date" = Some date →
  (get_data py_format py_repr float_sum jsonify_raises strptime_ymd W
     request s).1
  = inr (payload, 200%Z) →
  ∃ d v weather_data,
    payload = success_body d
    ∧ (get_open_meteo_weather py_format py_repr float_sum W c00 c01 date s).1
      = inr weather_data
    ∧ errors weather_data = []
    ∧ ee_getInfo W (ndvi_query (JList (JList [c00; c01] :: rest)) date)
      = inr v
    ∧ d !! "ndvi_mean" = Some v
    ∧ ∀ key, key ≠ "ndvi_mean" → d !! key = data weather_data !! key.
Proof.
  intros Hjson Hpoints Hdate Hresponse.
  destruct (decide (validate_request strptime_ymd request = []))
    as [Hvalid|Hbad];
    [|by rewrite (get_data_invalid py_format py_repr float_sum jsonify_raises
                    strptime_ymd W request s Hbad) in Hresponse].
  rewrite (get_data_valid py_format py_repr float_sum jsonify_raises
             strptime_ymd W request body
             _ _ rest _ s Hjson Hpoints Hdate Hvalid) in Hresponse.
  rewrite get_open_meteo_weather_run. cbn [fst].
  case_bool_decide as Hw; [done|]. case_bool_decide as Hn; [done|].
  apply ndvi_result_no_error in Hn as (v & _ & Hv & _ & Hresult).
  rewrite Hresult in Hresponse. cbn [data fst] in Hresponse.
  match type of Hresponse with
  | context [merge_outcome _ _ ?n ?merged] =>
      pose proof (merge_outcome_inv n merged) as Hmerge;
      destruct (merge_outcome jsonify_raises W n merged) as [e|payload']
  end; [done|].
  injection Hresponse as <-. subst payload'.
  eexists _, v, _. split_and!; try done.
  - apply lookup_union_Some_l, lookup_singleton_eq.
  - intros key Hkey. apply lookup_union_r. by apply lookup_singleton_ne.
Qed.

End HandlerEdges.

(** ** The further properties on the sample inputs *)

Lemma validate_request_malformed_body_witness :
  validate_request sample_strptime sample_request_list
  = ["validate_request: '" +:+ type_name (JList [])
     +:+ "' object has no attribute 'get'"].
Proof.
  apply (proj2 (validate_request_malformed_body sample_strptime
                  sample_request_list) (JList []));
    [reflexivity|discriminate].
Defined.

Lemma validate_request_short_coordinates_witness :
  validate_request sample_strptime
    {| request_json := inr (JDict {[ "coordinates" := JList [JNone] ]}) |}
  = "Coordinates must be a list with at least 4 points."
    :: date_errors sample_strptime
         (default JNone
            (({[ "coordinates" := JList [JNone] ]} : gmap string json)
               !! "date")).
Proof.
  apply (validate_request_short_coordinates sample_strptime
           {| request_json := inr (JDict {[ "coordinates" := JList [JNone] ]}) |}
           {[ "coordinates" := JList [JNone] ]});
    [reflexivity|].
  intros points Hpoints. vm_compute in Hpoints. injection Hpoints as <-.
  simpl. lia.
Defined.

Lemma validate_request_point_shape_witness :
  "Point " +:+ pretty (1 + 1) +:+ " is not a list of two elements."
  ∈ validate_request sample_strptime sample_request_malformed.
Proof.
  apply (proj2 (proj1 (validate_request_point_shape sample_strptime
                         sample_request_malformed
                         {[ "coordinates" := JList sample_points_malformed;
                            "date" := JInt 20240601 ]}
                         sample_points_malformed 1 JNone
                         eq_refl eq_refl (le_n 4) eq_refl))).
  reflexivity.
Defined.

Lemma validate_request_date_rule_witness :
  "Date must be a valid string in 'YYYY-MM-DD' format."
  ∈ validate_request sample_strptime sample_request_malformed.
Proof.
  apply (proj2 (proj1 (validate_request_date_rule sample_strptime
                         sample_request_malformed
                         {[ "coordinates" := JList sample_points_malformed;
                            "date" := JInt 20240601 ]}
                         eq_refl))).
  intros (d & Hd & _). vm_compute in Hd. discriminate Hd.
Defined.

Lemma validate_request_error_count_witness :
  length (validate_request sample_strptime sample_request_malformed)
  = length (filter (λ p, is_float_pair p = false) sample_points_malformed)
    + length (date_errors sample_strptime
                (default JNone
                   (({[ "coordinates" := JList sample_points_malformed;
                        "date" := JInt 20240601 ]} : gmap string json)
                      !! "date"))).
Proof.
  apply (validate_request_error_count sample_strptime sample_request_malformed
           {[ "coordinates" := JList sample_points_malformed;
              "date" := JInt 20240601 ]}
           sample_points_malformed eq_refl eq_refl (le_n 4)).
Defined.

Lemma weather_reducer_first_24_only_witness :
  (get_open_meteo_weather sample_format sample_repr sample_float_sum
     (sample_world 200 sample_hourly (inr JNone))
     (JFloat 10) (JFloat 20) (JStr "2024-06-01") sample_state).1
  = (get_open_meteo_weather sample_format sample_repr sample_float_sum
       (sample_world 200 sample_hourly_longer (inr JNone))
       (JFloat 10) (JFloat 20) (JStr "2024-06-01") sample_state).1.
Proof.
  apply (weather_reducer_first_24_only sample_format sample_repr sample_float_sum
           (sample_world 200 sample_hourly (inr JNone))
           (sample_world 200 sample_hourly_longer (inr JNone))
           (JFloat 10) (JFloat 20) (JStr "2024-06-01")
           sample_state sample_state _ _
           {[ "hourly" := JDict sample_hourly ]}
           {[ "hourly" := JDict sample_hourly_longer ]}
           sample_hourly sample_hourly_longer
           eq_refl eq_refl eq_refl eq_refl eq_refl eq_refl eq_refl eq_refl).
  intros key Hkey. unfold hourly_keys in Hkey.
  apply elem_of_cons in Hkey as [->|Hkey]; [by eexists _, _|].
  apply elem_of_cons in Hkey as [->|Hkey]; [by eexists _, _|].
  apply elem_of_cons in Hkey as [->|Hkey]; [by eexists _, _|].
  apply list_elem_of_singleton in Hkey as ->. by eexists _, _.
Defined.

Lemma weather_reducer_field_types_witness :
  ∃ t h w e,
    data (reducer_result "get_open_meteo_weather"
            (weather_outcome sample_format sample_repr sample_float_sum
               (sample_world 200 sample_hourly (inr JNone))
               (JFloat 10) (JFloat 20) (JStr "2024-06-01")))
    = {[ "mean_temperature_2m_C" := JFloat t;
         "mean_humidity_2m_%" := JFloat h;
         "mean_wind_speed_10m_m_s" := JFloat w;
         "sum_et0_mm" := e ]}
    ∧ is_int_or_float e.
Proof.
  apply (weather_reducer_field_types sample_format sample_repr sample_float_sum
           (sample_world 200 sample_hourly (inr JNone))
           (JFloat 10) (JFloat 20) (JStr "2024-06-01") sample_state _
           (f_equal fst
              (get_open_meteo_weather_run sample_format sample_repr sample_float_sum
                 (sample_world 200 sample_hourly (inr JNone))
                 (JFloat 10) (JFloat 20) (JStr "2024-06-01") sample_state))
           eq_refl).
Defined.

Lemma weather_reducer_rejects_non_number_witness :
  ∃ msg,
    (get_open_meteo_weather sample_format sample_repr sample_float_sum
       (sample_world 200 sample_hourly_null_entry (inr JNone))
       (JFloat 10) (JFloat 20) (JStr "2024-06-01") sample_state).1
    = inr (FetchResult ∅ ["get_open_meteo_weather: " +:+ msg]).
Proof.
  apply (weather_reducer_rejects_non_number sample_format sample_repr
           sample_float_sum
           (sample_world 200 sample_hourly_null_entry (inr JNone))
           (JFloat 10) (JFloat 20) (JStr "2024-06-01") sample_state _
           {[ "hourly" := JDict sample_hourly_null_entry ]}
           sample_hourly_null_entry "wind_speed_10m" [JFloat 3; JNone] JNone
           eq_refl eq_refl eq_refl eq_refl);
    [repeat constructor|reflexivity|repeat constructor|reflexivity].
Defined.

Lemma weather_reducer_et0_not_substituted_witness :
  ∃ msg,
    (get_open_meteo_weather sample_format sample_repr sample_float_sum
       (sample_world 200 sample_hourly_null_et0 (inr JNone))
       (JFloat 10) (JFloat 20) (JStr "2024-06-01") sample_state).1
    = inr (FetchResult ∅ ["get_open_meteo_weather: " +:+ msg]).
Proof.
  apply (weather_reducer_et0_not_substituted sample_format sample_repr
           sample_float_sum
           (sample_world 200 sample_hourly_null_et0 (inr JNone))
           (JFloat 10) (JFloat 20) (JStr "2024-06-01") sample_state _
           {[ "hourly" := JDict sample_hourly_null_et0 ]}
           sample_hourly_null_et0 JNone
           eq_refl eq_refl eq_refl eq_refl eq_refl);
    discriminate.
Defined.

Lemma weather_reducer_empty_et0_witness :
  (get_open_meteo_weather sample_format sample_repr sample_float_sum
     (sample_world 200 sample_hourly_empty_et0 (inr JNone))
     (JFloat 10) (JFloat 20) (JStr "2024-06-01") sample_state).1
  = inr (FetchResult {[ "mean_temperature_2m_C" := JFloat 10;
                        "mean_humidity_2m_%" := JFloat (float_ratio 121 2);
                        "mean_wind_speed_10m_m_s" := JFloat (float_ratio 7 2);
                        "sum_et0_mm" := JInt 0 ]} []).
Proof.
  apply (weather_reducer_empty_et0 sample_format sample_repr sample_float_sum
           (sample_world 200 sample_hourly_empty_et0 (inr JNone))
           (JFloat 10) (JFloat 20) (JStr "2024-06-01") sample_state
           {| status_code := 200; text := "body";
              response_json :=
                inr (JDict {[ "hourly" := JDict sample_hourly_empty_et0 ]}) |}
           {[ "hourly" := JDict sample_hourly_empty_et0 ]}
           sample_hourly_empty_et0
           sample_temperature sample_humidity sample_wind_speed
           (JFloat 10) (JFloat (float_ratio 121 2)) (JFloat (float_ratio 7 2)));
    vm_compute; reflexivity.
Defined.

Lemma weather_reducer_missing_hourly_witness :
  (get_open_meteo_weather sample_format sample_repr sample_float_sum
     (sample_world_of_body (JDict ∅))
     (JFloat 10) (JFloat 20) (JStr "2024-06-01") sample_state).1
  = inr (FetchResult ∅ ["get_open_meteo_weather: " +:+ "'hourly'"]).
Proof.
  apply (proj1 (weather_reducer_missing_hourly sample_format sample_repr
                  sample_float_sum
                  (sample_world_of_body (JDict ∅))
                  (JFloat 10) (JFloat 20) (JStr "2024-06-01") sample_state
                  _ (JDict ∅) eq_refl eq_refl eq_refl) ∅ eq_refl
           (lookup_empty "hourly")).
Defined.

Lemma vegetation_reducer_result_witness :
  (get_ndvi_data sample_world_long_ndvi (JList sample_points)
     (JStr "2024-06-01") sample_state).1
  = inr (FetchResult {[ "ndvi_mean" := JInt (sample_longest_integer + 1) ]}
           ["get_ndvi_data: " +:+ exn_str sample_conversion_error]).
Proof.
  apply (proj1 (proj2 (vegetation_reducer_result sample_world_long_ndvi
                         (JList sample_points) (JStr "2024-06-01")
                         sample_state (or_introl eq_refl)))
           (JInt (sample_longest_integer + 1)) sample_conversion_error
           eq_refl).
  vm_compute. reflexivity.
Defined.

Lemma vegetation_reducer_lazy_initialize_witness :
  get_ndvi_data sample_world_no_session (JList sample_points)
    (JStr "2024-06-01") (State false [])
  = (inr (FetchResult ∅ ["get_ndvi_data: " +:+ "Please authorize access"]),
     State false
       ([] ++ [Call_get_ndvi_data (JList sample_points) (JStr "2024-06-01");
               Call_ee_Initialize])).
Proof.
  apply (proj1 (proj2 (vegetation_reducer_lazy_initialize
                         sample_world_no_session (JList sample_points)
                         (JStr "2024-06-01") []))
           (Exn (ExternalError "EEException") "Please authorize access")
           eq_refl).
Defined.


Lemma get_data_merged_fields_witness :
  ∃ d v weather_data,
    success_body {[ "mean_temperature_2m_C" := JFloat 10;
                    "mean_humidity_2m_%" := JFloat (float_ratio 121 2);
                    "mean_wind_speed_10m_m_s" := JFloat (float_ratio 7 2);
                    "sum_et0_mm" := JFloat (float_ratio 4 10);
                    "ndvi_mean" := JNone ]}
    = success_body d
    ∧ (get_open_meteo_weather sample_format sample_repr sample_float_sum
         (sample_world 200 sample_hourly (inr JNone))
         (JFloat 10) (JFloat 20) (JStr "2024-06-01") sample_state).1
      = inr weather_data
    ∧ errors weather_data = []
    ∧ ee_getInfo (sample_world 200 sample_hourly (inr JNone))
        (ndvi_query (JList (JList [JFloat 10; JFloat 20] :: tail sample_points))
           (JStr "2024-06-01"))
      = inr v
    ∧ d !! "ndvi_mean" = Some v
    ∧ ∀ key, key ≠ "ndvi_mean" → d !! key = data weather_data !! key.
Proof.
  apply (get_data_merged_fields sample_format sample_repr sample_float_sum
           sample_jsonify sample_strptime
           (sample_world 200 sample_hourly (inr JNone))
           sample_request sample_body (JFloat 10) (JFloat 20)
           (tail sample_points) (JStr "2024-06-01") sample_state
           (success_body {[ "mean_temperature_2m_C" := JFloat 10;
                            "mean_humidity_2m_%" := JFloat (float_ratio 121 2);
                            "mean_wind_speed_10m_m_s" :=
                              JFloat (float_ratio 7 2);
                            "sum_et0_mm" := JFloat (float_ratio 4 10);
                            "ndvi_mean" := JNone ]})
           eq_refl eq_refl eq_refl).
  vm_compute. reflexivity.
Defined.
